(** * currency_api: fetch, unzip, table lookup and the HTTP endpoint

    A shallow embedding of [tools.py] (classes [ZipDownloader], [Unzipper],
    [CurrencyExtractor]) and of [currency_api.py] (the start-up code that
    builds the module-level [df], and the Flask view [endpoint]).

    Python exceptions are values of [exc]; a computation that may raise and
    that writes to the [logging] stream is a function from the log written so
    far to an outcome and the log afterwards. *)

From Stdlib Require Import ZArith List String Ascii Bool Floats DecimalString Lia.
Import ListNotations.
Set Warnings "-register-all".
Local Open Scope string_scope.

(* ------------------------------------------------------------------------ *)
(** ** Python runtime: exceptions, logging, try/except *)

(** The exception classes that the two modules raise, catch or can receive
    from the libraries they call. *)
Inductive exc : Type :=
| Exception (msg : string)            (* raise Exception(msg) *)
| KeyError (key : string)             (* a missing column label *)
| IndexError (msg : string)           (* result[0] on an empty array *)
| TypeError (msg : string)            (* JSON serialisation *)
| FileNotFoundError (msg : string)
| BadZipFile (msg : string)           (* zipfile.BadZipFile *)
| RequestException (msg : string)     (* requests' transport errors *)
| HTTPError (msg : string)            (* requests.exceptions.HTTPError *)
| KeyboardInterrupt.                  (* a BaseException that is no Exception *)

(** [isinstance(e, Exception)]. *)
Definition is_Exception (e : exc) : bool :=
  match e with
  | KeyboardInterrupt => false
  | _ => true
  end.

(** [isinstance(e, requests.RequestException)]: [HTTPError] is a subclass. *)
Definition is_RequestException (e : exc) : bool :=
  match e with
  | RequestException _ | HTTPError _ => true
  | _ => false
  end.

(** [isinstance(e, BaseException)]. *)
Definition is_BaseException (e : exc) : bool := true.

(** [str(e)]: the single argument of the exception; [KeyError] shows the
    [repr] of its key. *)
Definition str_exc (e : exc) : string :=
  match e with
  | Exception m | IndexError m | TypeError m | FileNotFoundError m
  | BadZipFile m | RequestException m | HTTPError m => m
  | KeyError k => "'" ++ k ++ "'"
  | KeyboardInterrupt => ""
  end.

(** [str(n)] for an [int], as an f-string formats it. *)
Definition str_int (n : Z) : string := NilZero.string_of_int (Z.to_int n).

Inductive Raises (A : Type) : Type :=
| Return (a : A)
| Raise (e : exc).
Arguments Return {A} a.
Arguments Raise {A} e.

Inductive level : Type := INFO | ERROR.

(** The records written through [logging], oldest first. *)
Definition Log : Type := list (level * string).

Definition M (A : Type) : Type := Log -> Raises A * Log.

Definition ret {A} (a : A) : M A := fun log => (Return a, log).

Definition bind {A B} (m : M A) (k : A -> M B) : M B :=
  fun log =>
    match m log with
    | (Return a, log') => k a log'
    | (Raise e, log') => (Raise e, log')
    end.

Definition raise {A} (e : exc) : M A := fun log => (Raise e, log).

(** A library call that returns or raises and does not log. *)
Definition call {A} (r : Raises A) : M A := fun log => (r, log).

Definition logging_info (msg : string) : M unit :=
  fun log => (Return tt, (log ++ [(INFO, msg)])%list).

Definition logging_error (msg : string) : M unit :=
  fun log => (Return tt, (log ++ [(ERROR, msg)])%list).

(** [try: body except C as e: handler e], where [catches] is
    [isinstance(_, C)]. *)
Definition try_except {A} (body : M A) (catches : exc -> bool)
  (handler : exc -> M A) : M A :=
  fun log =>
    match body log with
    | (Raise e, log') =>
        if catches e then handler e log' else (Raise e, log')
    | done => done
    end.

Declare Scope py_scope.
Delimit Scope py_scope with py.
Notation "x <- c1 ;; c2" := (bind c1 (fun x => c2))
  (at level 61, c1 at next level, right associativity) : py_scope.
Notation "c1 ;; c2" := (bind c1 (fun _ => c2))
  (at level 61, right associativity) : py_scope.
Local Open Scope py_scope.

(** The outcome of a computation started on a given log. *)
Definition outcome {A} (m : M A) (log : Log) : Raises A := fst (m log).

Definition bytes : Type := list Byte.byte.

(* ------------------------------------------------------------------------ *)
(** ** pandas: scalars, Series, DataFrame *)

(** The scalars a cell of the frame holds: [pd.read_csv] leaves text columns
    as [str] (object dtype, a missing field being the float [nan]) and turns a
    column whose fields all read as numbers into [numpy.int64] or
    [numpy.float64], a column of True/False into [numpy.bool_]; a frame built
    from Python lists, as in the tests, may also hold [None]. *)
Inductive scalar : Type :=
| Str (s : string)
| Float64 (x : float)
| Int64 (n : Z)
| Bool_ (b : bool)
| NoneVal.

(** [pd.isna(v)] on a scalar. *)
Definition isna (v : scalar) : bool :=
  match v with
  | NoneVal => true
  | Float64 x => PrimFloat.is_nan x
  | _ => false
  end.

Definition notna (v : scalar) : bool := negb (isna v).

(** [v == s] for a [str] s: only an equal [str] compares equal. *)
Definition eq_str (s : string) (v : scalar) : bool :=
  match v with
  | Str t => String.eqb t s
  | _ => false
  end.

Definition Series : Type := list scalar.

(** A frame is its columns in order, each a label and the values of the
    rows. *)
Definition DataFrame : Type := list (string * Series).

(** [df.columns.values]. *)
Definition columns_values (df : DataFrame) : list string := map fst df.

Fixpoint nodupb (l : list string) : bool :=
  match l with
  | [] => true
  | x :: t => negb (existsb (String.eqb x) t) && nodupb t
  end.

(** [len(df.index)]. *)
Definition index_size (df : DataFrame) : nat :=
  match df with
  | [] => 0
  | c :: _ => List.length (snd c)
  end.

(** What every frame of [pd.read_csv] (which renames repeated headers) and
    every frame built from a [dict] satisfies: labels are distinct and all
    columns have one length. *)
Definition well_formed (df : DataFrame) : bool :=
  nodupb (columns_values df)
  && forallb (fun c => Nat.eqb (List.length (snd c)) (index_size df)) df.

(** [label in array] for an array of labels. *)
Definition label_in (label : string) (labels : list string) : bool :=
  existsb (String.eqb label) labels.

(** [s in series.values] for a [str] s: [(values == s).any()]. *)
Definition str_in (s : string) (values : Series) : bool :=
  existsb (eq_str s) values.

(** [df[label]] on a frame whose labels are distinct, as [well_formed] has
    it: the column of that label, KeyError when there is none. (For a label
    that occurs more than once pandas returns the sub-frame of its columns;
    the statements below that read a column take a [well_formed] frame.) *)
Definition getitem (df : DataFrame) (label : string) : Raises Series :=
  match find (fun c => String.eqb (fst c) label) df with
  | Some c => Return (snd c)
  | None => Raise (KeyError label)
  end.

(** [series == s]: the boolean mask. *)
Definition Series_eq (col : Series) (s : string) : list bool :=
  map (eq_str s) col.

(** The values kept by a boolean mask, in row order. *)
Fixpoint select {A} (mask : list bool) (xs : list A) : list A :=
  match mask, xs with
  | b :: mask', x :: xs' => if b then x :: select mask' xs' else select mask' xs'
  | _, _ => []
  end.

(** [df.loc[mask, label].values] for a boolean Series [mask] and a label of
    one column: the values of that column in the rows the mask keeps. *)
Definition loc_values (df : DataFrame) (mask : list bool) (label : string)
  : Raises Series :=
  match getitem df label with
  | Return col => Return (select mask col)
  | Raise e => Raise e
  end.

(** [array[0]]. *)
Definition item0 (a : Series) : Raises scalar :=
  match a with
  | v :: _ => Return v
  | [] => Raise (IndexError "index 0 is out of bounds for axis 0 with size 0")
  end.

(** [df.dropna(axis=1, how='all')]: a column stays when some value of it is
    not missing. *)
Definition dropna_all_columns (df : DataFrame) : DataFrame :=
  filter (fun c => existsb notna (snd c)) df.

(** A Python [dict] with [str] keys, in insertion order. *)
Definition dict : Type := list (string * scalar).

(* ------------------------------------------------------------------------ *)
(** ** tools.py *)

(** [requests.Response], as far as the code reads it. *)
Record Response : Type := { status_code : Z; content : bytes }.

Module ZipDownloader.

Record t : Type := { url : string }.

Section Network.
(** [requests.get]: the network, which answers or raises. *)
Variable requests_get : string -> Raises Response.

Definition _make_request (self : t) : M Response :=
  try_except
    (call (requests_get (url self)))
    is_RequestException
    (fun e =>
       logging_error ("Error making request: " ++ str_exc e) ;;
       raise e).

Definition _check_response (self : t) (response : Response) : M unit :=
  if negb (status_code response =? 200)%Z
  then raise (HTTPError ("HTTP error " ++ str_int (status_code response)))
  else ret tt.

Definition get_file (self : t) : M bytes :=
  try_except
    (response <- _make_request self ;;
     _check_response self response ;;
     let zipped_data := content response in
     logging_info ("File successfully downloaded: " ++ url self) ;;
     ret zipped_data)
    is_Exception
    (fun e =>
       logging_error ("An error occurred: " ++ str_exc e) ;;
       raise e).
End Network.

End ZipDownloader.

(** [zipfile.ZipInfo] together with what [zip_ref.open(info).read()] gives for
    it: the decompressed content, or the error of a damaged entry. *)
Record ZipInfo : Type := { filename : string; read : Raises bytes }.

(** An opened [zipfile.ZipFile]: its [infolist()], in stored order. *)
Definition ZipFile : Type := list ZipInfo.

Module Unzipper.

Record t : Type := { file_to_extract : string; zipped_data : bytes }.

(** The [for info in zip_ref.infolist()] loop and the [raise] after it. *)
Fixpoint extract_loop (self : t) (infolist : list ZipInfo) : M bytes :=
  match infolist with
  | info :: rest =>
      if (filename info =? file_to_extract self)%string then
        file_contents <- call (read info) ;;
        logging_info ("File successfully unzipped: " ++ file_to_extract self) ;;
        ret file_contents
      else extract_loop self rest
  | [] =>
      raise (FileNotFoundError
               ("Specified file not found: " ++ file_to_extract self))
  end.

Definition _extract_file (self : t) (zip_ref : ZipFile) : M bytes :=
  try_except
    (extract_loop self zip_ref)
    is_Exception
    (fun e =>
       logging_error ("Error extracting file: " ++ str_exc e) ;;
       raise e).

Section Zip.
(** [zipfile.ZipFile(data, 'r')]: reads the directory of the archive or
    raises on bytes that are no archive. *)
Variable ZipFile_open : bytes -> Raises ZipFile.

Definition get_data (self : t) : M bytes :=
  try_except
    (zip_ref <- call (ZipFile_open (zipped_data self)) ;;
     _extract_file self zip_ref)
    is_Exception
    (fun e =>
       logging_error ("An error occurred: " ++ str_exc e) ;;
       raise e).
End Zip.

End Unzipper.

Module CurrencyExtractor.

Record t : Type := { date : string; currency : string; df : DataFrame }.

Definition _validate_inputs (self : t) : M unit :=
  if negb (label_in (currency self) (columns_values (df self)))
     || (currency self =? "Date")%string
  then raise (Exception ("Currency not available: " ++ currency self))
  else
    dates <- call (getitem (df self) "Date") ;;
    if negb (str_in (date self) dates)
    then raise (Exception ("Date not available: " ++ date self))
    else ret tt.

Definition get_value (self : t) : M dict :=
  try_except
    (_validate_inputs self ;;
     dates <- call (getitem (df self) "Date") ;;
     result <- call (loc_values (df self) (Series_eq dates (date self))
                       (currency self)) ;;
     result_0 <- call (item0 result) ;;
     if isna result_0 then
       raise (Exception ("Currency data not available: "
                         ++ currency self ++ ", " ++ date self))
     else
       let result_dict :=
         [("currency", Str (currency self));
          ("date", Str (date self));
          ("value", result_0)] in
       ret result_dict)
    is_Exception
    (fun e =>
       logging_error ("An error occurred: " ++ str_exc e) ;;
       raise e).

End CurrencyExtractor.

(** The three failures of a lookup, by the message the code gives them. *)
Definition CurrencyNotAvailable (currency : string) : exc :=
  Exception ("Currency not available: " ++ currency).

Definition DateNotAvailable (date : string) : exc :=
  Exception ("Date not available: " ++ date).

Definition DataNotAvailable (currency date : string) : exc :=
  Exception ("Currency data not available: " ++ currency ++ ", " ++ date).

(* ------------------------------------------------------------------------ *)
(** ** currency_api.py *)

Inductive Json : Type :=
| JString (s : string)
| JNumber (x : float)
| JNull
| JObject (members : list (string * Json)).

(** What [json.dumps] makes of a scalar: [numpy.float64] is a [float];
    [numpy.int64] and [numpy.bool_] derive from no type the encoder knows, so
    Flask's [default] hook raises. *)
Definition json_scalar (v : scalar) : Raises Json :=
  match v with
  | Str s => Return (JString s)
  | Float64 x => Return (JNumber x)
  | NoneVal => Return JNull
  | Int64 _ => Raise (TypeError "Object of type int64 is not JSON serializable")
  | Bool_ _ => Raise (TypeError "Object of type bool_ is not JSON serializable")
  end.

Fixpoint json_members (d : dict) : Raises (list (string * Json)) :=
  match d with
  | [] => Return []
  | (k, v) :: rest =>
      match json_scalar v with
      | Return j =>
          match json_members rest with
          | Return js => Return ((k, j) :: js)
          | Raise e => Raise e
          end
      | Raise e => Raise e
      end
  end.

(** [flask.jsonify(d)] for a [dict]: the body of the response. *)
Definition jsonify (d : dict) : Raises Json :=
  match json_members d with
  | Return js => Return (JObject js)
  | Raise e => Raise e
  end.

(** What a view returns to Flask: a body and a status code. *)
Record HttpResponse : Type := { body : Json; status : Z }.

Module App.

Section Startup.
(** The environment of the process ([os.getenv]) and the libraries. *)
Variables (ZIP_URL FILE_TO_EXTRACT : string).
Variable requests_get : string -> Raises Response.
Variable ZipFile_open : bytes -> Raises ZipFile.
Variable read_csv : bytes -> Raises DataFrame.

(** The module-level statements that build [df]. *)
Definition build_df : M DataFrame :=
  let zip_downloader := {| ZipDownloader.url := ZIP_URL |} in
  zipped <- ZipDownloader.get_file requests_get zip_downloader ;;
  let unzipper :=
    {| Unzipper.file_to_extract := FILE_TO_EXTRACT;
       Unzipper.zipped_data := zipped |} in
  data <- Unzipper.get_data ZipFile_open unzipper ;;
  df <- call (read_csv data) ;;
  (* drop columns where all values = nan *)
  ret (dropna_all_columns df).
End Startup.

Definition error_dict : dict :=
  [("error",
    Str "Something wrong happend, please read the log for more information")].

(** The view: [jsonify(result)] is a response with status 200. *)
Definition endpoint (df : DataFrame) (date currency : string)
  : M HttpResponse :=
  try_except
    (let currency_extractor :=
       {| CurrencyExtractor.date := date;
          CurrencyExtractor.currency := currency;
          CurrencyExtractor.df := df |} in
     result <- CurrencyExtractor.get_value currency_extractor ;;
     json <- call (jsonify result) ;;
     ret {| body := json; status := 200 |})
    is_BaseException
    (fun _ =>
       json <- call (jsonify error_dict) ;;
       ret {| body := json; status := 404 |}).

End App.

(* ------------------------------------------------------------------------ *)
(** ** Vocabulary of the specification *)

(** [lookup(date, currency)] on a table. *)
Definition lookup (df : DataFrame) (date currency : string) : M dict :=
  CurrencyExtractor.get_value
    {| CurrencyExtractor.date := date;
       CurrencyExtractor.currency := currency;
       CurrencyExtractor.df := df |}.

(** A valid currency: a column label other than the date key. *)
Definition valid_currency (df : DataFrame) (currency : string) : bool :=
  label_in currency (columns_values df) && negb (currency =? "Date")%string.

(** Row [i] is the first row whose date key is [date]. *)
Definition first_match (dates : Series) (date : string) (i : nat) : Prop :=
  nth_error dates i = Some (Str date) /\ str_in date (firstn i dates) = false.

(** Every value of the column is missing. *)
Definition all_null (col : Series) : bool := forallb isna col.

(** The result of a successful lookup. *)
Definition LookupResult (currency date : string) (value : scalar) : dict :=
  [("currency", Str currency); ("date", Str date); ("value", value)].

(** A failure that passes through an [except Exception] handler which logs
    [prefix ++ str(e)] and raises again. *)
Definition logged (prefix : string) (e : exc) (log : Log) : Log :=
  if is_Exception e
  then (log ++ [(ERROR, (prefix ++ str_exc e)%string)])%list
  else log.

(** A failure of [get_value]: logged by its handler, then raised again. *)
Definition lookup_failure (e : exc) (log : Log) : Raises dict * Log :=
  (Raise e, logged "An error occurred: " e log).

(** The body of the generic error response. *)
Definition error_body : Json :=
  JObject
    [("error",
      JString "Something wrong happend, please read the log for more information")].

(* ------------------------------------------------------------------------ *)
(** ** Sample data *)

(** The fixtures of test_tools.py. *)
Definition sample_dataframe : DataFrame :=
  [("Date", [Str "2023-11-20"; Str "2023-11-21"; Str "2023-11-22"]);
   ("USD", [Str "3.1415"; Str "1.4142"; Str "2.7182"]);
   ("SEK", [Str "6.6260"; Str "9.1093"; Float64 nan])].

Definition sample_zip : ZipFile :=
  [{| filename := "filename.txt";
      read := Return (list_byte_of_string "navigare necesse est") |}].

(** What [pd.read_csv] returns for the three lines
    [Date,USD,] / [2023-11-20,1.50,] / [2023-11-21,0.25,]: the header ends in
    a comma, so there is a third, unnamed column without a value; the fields
    of USD all read as numbers, so the column is float64. *)
Definition numeric_frame : DataFrame :=
  [("Date", [Str "2023-11-20"; Str "2023-11-21"]);
   ("USD", [Float64 1.5; Float64 0.25]);
   ("Unnamed: 2", [Float64 nan; Float64 nan])].

(** [pd.read_csv] of [Date,JPY] / [2023-11-20,150] / [2023-11-21,151]: a
    column of whole numbers is int64. *)
Definition integer_frame : DataFrame :=
  [("Date", [Str "2023-11-20"; Str "2023-11-21"]);
   ("JPY", [Int64 150; Int64 151])].

(** [pd.read_csv] of [Date,USD] / [,1.50] / [,0.25]: no row has a date. *)
Definition undated_frame : DataFrame :=
  [("Date", [Float64 nan; Float64 nan]);
   ("USD", [Float64 1.5; Float64 0.25])].

(** A table in which a date occurs twice. *)
Definition duplicate_frame : DataFrame :=
  [("Date", [Str "2023-11-20"; Str "2023-11-21"; Str "2023-11-21"]);
   ("USD", [Str "3.1415"; Float64 nan; Str "2.7182"]);
   ("SEK", [Str "6.6260"; Str "9.1093"; Float64 nan])].

(* ------------------------------------------------------------------------ *)
(** ** The scenarios of test_tools.py *)

Example test_currency_extractor_correct_result :
  outcome (lookup sample_dataframe "2023-11-20" "USD") [] =
  Return [("currency", Str "USD"); ("date", Str "2023-11-20");
          ("value", Str "3.1415")].
Proof. reflexivity. Qed.

Example test_currency_extractor_wrong_date :
  lookup sample_dataframe "2023-11-19" "USD" [] =
  (Raise (Exception "Date not available: 2023-11-19"),
   [(ERROR, "An error occurred: Date not available: 2023-11-19")]).
Proof. reflexivity. Qed.

Example test_currency_extractor_wrong_currency :
  outcome (lookup sample_dataframe "2023-11-20" "ASD") [] =
  Raise (Exception "Currency not available: ASD").
Proof. reflexivity. Qed.

Example test_currency_extractor_nan_value :
  outcome (lookup sample_dataframe "2023-11-22" "SEK") [] =
  Raise (Exception "Currency data not available: SEK, 2023-11-22").
Proof. reflexivity. Qed.

Example test_unzipper :
  outcome (Unzipper.get_data (fun _ => Return sample_zip)
             {| Unzipper.file_to_extract := "filename.txt";
                Unzipper.zipped_data := [] |}) [] =
  Return (list_byte_of_string "navigare necesse est").
Proof. reflexivity. Qed.

Example test_zip_downloader_get_file_successful_download :
  outcome (ZipDownloader.get_file
             (fun _ => Return {| status_code := 200;
                                 content := list_byte_of_string "0123456789" |})
             {| ZipDownloader.url := "http://whatever.com/file.zip" |}) [] =
  Return (list_byte_of_string "0123456789").
Proof. reflexivity. Qed.

Example test_zip_downloader_get_file_http_error :
  outcome (ZipDownloader.get_file
             (fun _ => Return {| status_code := 404;
                                 content := list_byte_of_string "0123456789" |})
             {| ZipDownloader.url := "http://whatever.com/file.zip" |}) [] =
  Raise (HTTPError "HTTP error 404").
Proof. reflexivity. Qed.

(* ------------------------------------------------------------------------ *)
(** ** Columns, masks and pruning *)

Lemma eq_str_true (s : string) (v : scalar) :
  eq_str s v = true <-> v = Str s.
Proof.
  destruct v as [t| | | |]; simpl; split; try discriminate.
  - intros H. apply String.eqb_eq in H. now subst.
  - intros H. injection H as ->. apply String.eqb_refl.
Qed.

Lemma str_in_spec (s : string) (values : Series) :
  str_in s values = true <-> In (Str s) values.
Proof.
  unfold str_in. rewrite existsb_exists. split.
  - intros [v [Hin Hv]]. apply eq_str_true in Hv. now subst.
  - intros Hin. exists (Str s). split; [assumption | now apply eq_str_true].
Qed.

Lemma str_in_false (s : string) (values : Series) :
  ~ In (Str s) values -> str_in s values = false.
Proof.
  intros H. destruct (str_in s values) eqn:E; [| reflexivity].
  apply str_in_spec in E. contradiction.
Qed.

Lemma label_in_spec (label : string) (labels : list string) :
  label_in label labels = true <-> In label labels.
Proof.
  unfold label_in. rewrite existsb_exists. split.
  - intros [x [Hin Hx]]. apply String.eqb_eq in Hx. now subst.
  - intros Hin. exists label. split; [assumption | apply String.eqb_refl].
Qed.

Lemma getitem_Return (df : DataFrame) (label : string) (col : Series) :
  getitem df label = Return col -> In (label, col) df.
Proof.
  unfold getitem. destruct (find _ df) as [c|] eqn:E; [| discriminate].
  intros H. injection H as <-. apply find_some in E. destruct E as [Hin Hc].
  apply String.eqb_eq in Hc. destruct c as [l s]. simpl in *. now subst.
Qed.

Lemma getitem_label_in (df : DataFrame) (label : string) (col : Series) :
  getitem df label = Return col -> label_in label (columns_values df) = true.
Proof.
  intros H. apply getitem_Return in H. apply label_in_spec.
  unfold columns_values. change label with (fst (label, col)). now apply in_map.
Qed.

Lemma label_in_getitem (df : DataFrame) (label : string) :
  label_in label (columns_values df) = true ->
  exists col, getitem df label = Return col.
Proof.
  unfold getitem. induction df as [| [l s] df IH]; simpl; [discriminate |].
  rewrite String.eqb_sym. destruct (String.eqb l label); simpl.
  - intros _. now exists s.
  - exact IH.
Qed.

Lemma getitem_missing (df : DataFrame) (label : string) :
  label_in label (columns_values df) = false ->
  getitem df label = Raise (KeyError label).
Proof.
  unfold getitem. induction df as [| [l s] df IH]; simpl; [reflexivity |].
  rewrite String.eqb_sym. destruct (String.eqb l label); simpl.
  - discriminate.
  - exact IH.
Qed.

Lemma nodupb_NoDup (l : list string) : nodupb l = true -> NoDup l.
Proof.
  induction l as [| x t IH]; simpl; intros H; constructor.
  - apply andb_prop in H. destruct H as [H _].
    intros Hin. apply label_in_spec in Hin. unfold label_in in Hin.
    rewrite Hin in H. discriminate.
  - apply IH. apply andb_prop in H. tauto.
Qed.

(** With distinct labels, a column of the frame is the one [df[label]]
    returns. *)
Lemma In_getitem (df : DataFrame) (label : string) (col : Series) :
  NoDup (columns_values df) -> In (label, col) df ->
  getitem df label = Return col.
Proof.
  unfold getitem. induction df as [| [l s] df IH]; simpl; [contradiction |].
  intros Hnd [Heq | Hin].
  - injection Heq as -> ->. now rewrite String.eqb_refl.
  - inversion Hnd as [| ? ? Hnotin Hnd']; subst.
    destruct (String.eqb l label) eqn:E.
    + apply String.eqb_eq in E. subst l. exfalso. apply Hnotin.
      change label with (fst (label, col)). now apply in_map.
    + now apply IH.
Qed.

Lemma well_formed_NoDup (df : DataFrame) :
  well_formed df = true -> NoDup (columns_values df).
Proof.
  unfold well_formed. intros H. apply andb_prop in H.
  apply nodupb_NoDup. tauto.
Qed.

(** In a frame every column has as many values as there are rows. *)
Lemma well_formed_length (df : DataFrame) (label : string) (col : Series) :
  well_formed df = true -> getitem df label = Return col ->
  List.length col = index_size df.
Proof.
  unfold well_formed. intros H Hget. apply andb_prop in H. destruct H as [_ H].
  rewrite forallb_forall in H. apply getitem_Return in Hget.
  specialize (H _ Hget). simpl in H. now apply Nat.eqb_eq in H.
Qed.

(** The mask of a date that occurs selects at least one value. *)
Lemma select_nonempty (date : string) (dates vals : Series) :
  str_in date dates = true -> List.length vals = List.length dates ->
  select (Series_eq dates date) vals <> [].
Proof.
  revert vals. induction dates as [| x dates IH]; intros vals Hin Hlen.
  - discriminate.
  - destruct vals as [| v vals]; [discriminate |]. simpl in *.
    destruct (eq_str date x); simpl in *.
    + discriminate.
    + apply IH; [assumption | lia].
Qed.

(** The first value a mask selects is the value of the first matching row. *)
Lemma select_first_match (date : string) (i : nat) :
  forall (dates vals : Series) (v : scalar),
    first_match dates date i -> nth_error vals i = Some v ->
    exists rest, select (Series_eq dates date) vals = v :: rest.
Proof.
  unfold first_match.
  induction i as [| i IH]; intros dates vals v [Hnth Hbefore] Hv;
    destruct dates as [| x dates]; try discriminate;
    destruct vals as [| y vals]; try discriminate; simpl in *.
  - injection Hnth as ->. injection Hv as ->.
    rewrite (proj2 (eq_str_true date (Str date)) eq_refl). eauto.
  - apply orb_false_elim in Hbefore. destruct Hbefore as [Hx Hbefore].
    rewrite Hx. apply IH; [split |]; assumption.
Qed.

Lemma first_match_str_in (dates : Series) (date : string) (i : nat) :
  first_match dates date i -> str_in date dates = true.
Proof.
  intros [Hnth _]. apply str_in_spec. eapply nth_error_In. eassumption.
Qed.

Lemma dropna_In (df : DataFrame) (label : string) (col : Series) :
  In (label, col) (dropna_all_columns df) <->
  In (label, col) df /\ all_null col = false.
Proof.
  unfold dropna_all_columns, all_null. rewrite filter_In. simpl.
  assert (E : existsb notna col = negb (forallb isna col)).
  { induction col as [| v col IH]; simpl; [reflexivity |].
    rewrite IH. unfold notna. now destruct (isna v). }
  rewrite E. destruct (forallb isna col); simpl; intuition congruence.
Qed.

Lemma dropna_NoDup (df : DataFrame) :
  NoDup (columns_values df) -> NoDup (columns_values (dropna_all_columns df)).
Proof.
  unfold dropna_all_columns, columns_values.
  induction df as [| c df IH]; simpl; intros H; [constructor |].
  inversion H as [| ? ? Hnotin Hnd]; subst.
  destruct (existsb _ _); simpl; [| now apply IH].
  constructor; [| now apply IH].
  intros Hin. apply Hnotin. apply in_map_iff in Hin.
  destruct Hin as [c' [Hfst Hin]]. apply filter_In in Hin.
  apply in_map_iff. exists c'. tauto.
Qed.

(** Pruning leaves a frame: labels stay distinct, columns keep their
    length. *)
Lemma dropna_well_formed (df : DataFrame) :
  well_formed df = true -> well_formed (dropna_all_columns df) = true.
Proof.
  intros H. pose proof (well_formed_NoDup _ H) as Hnd.
  unfold well_formed in *. apply andb_prop in H. destruct H as [_ Hlen].
  rewrite forallb_forall in Hlen.
  assert (Hall : forall c, In c (dropna_all_columns df) ->
                           List.length (snd c) = index_size df).
  { intros c Hc. apply filter_In in Hc. destruct Hc as [Hc _].
    apply Nat.eqb_eq. now apply Hlen. }
  apply andb_true_intro. split.
  - apply dropna_NoDup in Hnd. clear - Hnd.
    induction Hnd as [| x t Hnotin _ IH]; simpl; [reflexivity |].
    rewrite IH, andb_true_r. destruct (existsb (String.eqb x) t) eqn:E;
      [| reflexivity].
    exfalso. apply Hnotin. now apply label_in_spec.
  - apply forallb_forall. intros c Hc. apply Nat.eqb_eq.
    transitivity (index_size df); [now apply Hall |].
    remember (dropna_all_columns df) as pruned.
    destruct pruned as [| c0 rest]; [contradiction |].
    simpl. symmetry. apply Hall. now left.
Qed.

(** A column that survives pruning is a column of the frame as read, with
    the same values. *)
Lemma dropna_getitem (df : DataFrame) (label : string) (col : Series) :
  NoDup (columns_values df) ->
  getitem (dropna_all_columns df) label = Return col ->
  getitem df label = Return col /\ all_null col = false.
Proof.
  intros Hnd H. apply getitem_Return in H. apply dropna_In in H.
  destruct H as [Hin Hnull]. split; [now apply In_getitem | assumption].
Qed.

(* ------------------------------------------------------------------------ *)
(** ** CurrencyExtractor: what a lookup computes *)

Ltac run_py :=
  unfold try_except, bind, call, raise, ret, logging_error, logging_info,
    lookup_failure, logged; simpl.

Lemma validate_run (df : DataFrame) (date currency : string) (log : Log) :
  CurrencyExtractor._validate_inputs
    {| CurrencyExtractor.date := date;
       CurrencyExtractor.currency := currency;
       CurrencyExtractor.df := df |} log =
  if negb (valid_currency df currency)
  then (Raise (CurrencyNotAvailable currency), log)
  else
    match getitem df "Date" with
    | Raise e => (Raise e, log)
    | Return dates =>
        if negb (str_in date dates)
        then (Raise (DateNotAvailable date), log)
        else (Return tt, log)
    end.
Proof.
  unfold CurrencyExtractor._validate_inputs, valid_currency. simpl.
  destruct (label_in currency (columns_values df));
    destruct (currency =? "Date")%string; simpl; try reflexivity.
  run_py. destruct (getitem df "Date") as [dates | e]; [| reflexivity].
  destruct (str_in date dates); reflexivity.
Qed.

(** The whole of [get_value], check by check. *)
Lemma lookup_run (df : DataFrame) (date currency : string) (log : Log) :
  lookup df date currency log =
  if negb (valid_currency df currency)
  then lookup_failure (CurrencyNotAvailable currency) log
  else
    match getitem df "Date" with
    | Raise e => lookup_failure e log
    | Return dates =>
        if negb (str_in date dates)
        then lookup_failure (DateNotAvailable date) log
        else
          match getitem df currency with
          | Raise e => lookup_failure e log
          | Return vals =>
              match select (Series_eq dates date) vals with
              | [] =>
                  lookup_failure
                    (IndexError
                       "index 0 is out of bounds for axis 0 with size 0") log
              | v :: _ =>
                  if isna v
                  then lookup_failure (DataNotAvailable currency date) log
                  else (Return (LookupResult currency date v), log)
              end
          end
    end.
Proof.
  unfold lookup, CurrencyExtractor.get_value, try_except, bind at 1.
  rewrite validate_run. simpl.
  destruct (valid_currency df currency); simpl; [| reflexivity].
  destruct (getitem df "Date") as [dates | e];
    [| run_py; destruct (is_Exception e); reflexivity].
  destruct (str_in date dates); simpl; [| reflexivity].
  run_py. unfold loc_values.
  destruct (getitem df currency) as [vals | e];
    [| destruct (is_Exception e); reflexivity].
  destruct (select (Series_eq dates date) vals) as [| v rest]; simpl;
    [reflexivity |].
  destruct (isna v); reflexivity.
Qed.

Lemma valid_currency_spec (df : DataFrame) (currency : string) :
  valid_currency df currency = true <->
  In currency (columns_values df) /\ currency <> "Date".
Proof.
  unfold valid_currency. rewrite andb_true_iff, label_in_spec, negb_true_iff.
  now rewrite String.eqb_neq.
Qed.

(** The lookup once both arguments pass validation and the first row of the
    date is known. *)
Lemma lookup_at_first_match (df : DataFrame) (date currency : string)
  (dates vals : Series) (i : nat) (v : scalar) (log : Log) :
  valid_currency df currency = true ->
  getitem df "Date" = Return dates -> first_match dates date i ->
  getitem df currency = Return vals -> nth_error vals i = Some v ->
  lookup df date currency log =
  if isna v
  then (Raise (DataNotAvailable currency date),
        (log ++ [(ERROR, ("An error occurred: Currency data not available: "
                          ++ currency ++ ", " ++ date)%string)])%list)
  else (Return (LookupResult currency date v), log).
Proof.
  intros Hvalid HDate Hfirst Hcol Hv. rewrite lookup_run.
  rewrite Hvalid, HDate, (first_match_str_in _ _ _ Hfirst), Hcol. simpl.
  destruct (select_first_match _ _ _ _ _ Hfirst Hv) as [rest ->].
  destruct (isna v); reflexivity.
Qed.

Lemma lookup_date_absent (df : DataFrame) (date currency : string)
  (dates : Series) (log : Log) :
  valid_currency df currency = true ->
  getitem df "Date" = Return dates -> str_in date dates = false ->
  lookup df date currency log =
  (Raise (DateNotAvailable date),
   (log ++ [(ERROR, ("An error occurred: Date not available: "
                     ++ date)%string)])%list).
Proof.
  intros Hvalid HDate Habsent. rewrite lookup_run.
  rewrite Hvalid, HDate, Habsent. reflexivity.
Qed.

Lemma lookup_invalid_currency (df : DataFrame) (date currency : string)
  (log : Log) :
  valid_currency df currency = false ->
  lookup df date currency log =
  (Raise (CurrencyNotAvailable currency),
   (log ++ [(ERROR, ("An error occurred: Currency not available: "
                     ++ currency)%string)])%list).
Proof.
  intros Hinvalid. rewrite lookup_run. rewrite Hinvalid. reflexivity.
Qed.

(* ------------------------------------------------------------------------ *)
(** ** Lookup: the error contract *)

(** C4. Whatever the table and the date, a lookup whose currency is the
    date-key label ['Date'] fails with CurrencyNotAvailable, also when 'Date'
    is a column of the table. *)
Theorem lookup_date_key_not_a_currency (df : DataFrame) (date : string)
  (log : Log) :
  lookup df date "Date" log =
  (Raise (CurrencyNotAvailable "Date"),
   (log ++ [(ERROR, "An error occurred: Currency not available: Date")])%list).
Proof.
  apply lookup_invalid_currency. unfold valid_currency. simpl.
  apply andb_false_r.
Qed.

(** C7, as the code has it. On a well-formed table that has its 'Date'
    column, for a valid currency (a column label other than 'Date'), a lookup
    whose date is the date key of no row fails with DateNotAvailable carrying
    that date. *)
Theorem lookup_date_not_available (df : DataFrame) (date currency : string)
  (dates : Series) (log : Log) :
  well_formed df = true ->
  In currency (columns_values df) -> currency <> "Date" ->
  getitem df "Date" = Return dates ->
  ~ In (Str date) dates ->
  lookup df date currency log =
  (Raise (DateNotAvailable date),
   (log ++ [(ERROR, ("An error occurred: Date not available: "
                     ++ date)%string)])%list).
Proof.
  intros _ Hin Hneq HDate Habsent. eapply lookup_date_absent.
  - apply valid_currency_spec. now split.
  - eassumption.
  - now apply str_in_false.
Qed.

Lemma lookup_date_not_available_witness :
  lookup sample_dataframe "2023-11-19" "USD" [] =
  (Raise (DateNotAvailable "2023-11-19"),
   [(ERROR, "An error occurred: Date not available: 2023-11-19")]).
Proof.
  apply (lookup_date_not_available sample_dataframe "2023-11-19" "USD"
           [Str "2023-11-20"; Str "2023-11-21"; Str "2023-11-22"] []).
  - reflexivity.
  - simpl. tauto.
  - discriminate.
  - reflexivity.
  - simpl. intros [H | [H | [H | H]]]; try discriminate H. exact H.
Defined.

(** C7, as stated, fails on a table without a 'Date' column, such as the one
    start-up builds when no row of the member has a date: USD is a valid
    currency, the date is the date key of no row, and the lookup fails with
    KeyError for 'Date', not with DateNotAvailable. *)
Lemma lookup_date_not_available_counterexample :
  dropna_all_columns undated_frame = [("USD", [Float64 1.5; Float64 0.25])]
  /\ well_formed (dropna_all_columns undated_frame) = true
  /\ In "USD" (columns_values (dropna_all_columns undated_frame))
  /\ "USD" <> "Date"
  /\ lookup (dropna_all_columns undated_frame) "2023-11-20" "USD" []
     = (Raise (KeyError "Date"), [(ERROR, "An error occurred: 'Date'")])
  /\ KeyError "Date" <> DateNotAvailable "2023-11-20".
Proof.
  split; [reflexivity |]. split; [reflexivity |].
  split; [simpl; now left |]. split; [discriminate |].
  split; [reflexivity | discriminate].
Qed.

(** C2, as the code has it. The checks of a lookup run in a fixed order. On
    every table an invalid currency gives CurrencyNotAvailable whatever the
    date is; on a well-formed table that has its 'Date' column, with a valid
    currency, a date that is no date key gives DateNotAvailable; with both
    valid, the value of the first row of that date decides between
    DataNotAvailable (missing value) and the result. *)
Theorem lookup_check_order (df : DataFrame) (date currency : string)
  (log : Log) :
  (valid_currency df currency = false ->
   lookup df date currency log =
   (Raise (CurrencyNotAvailable currency),
    (log ++ [(ERROR, ("An error occurred: Currency not available: "
                      ++ currency)%string)])%list))
  /\
  (forall dates : Series,
      well_formed df = true ->
      valid_currency df currency = true ->
      getitem df "Date" = Return dates ->
      (str_in date dates = false ->
       lookup df date currency log =
       (Raise (DateNotAvailable date),
        (log ++ [(ERROR, ("An error occurred: Date not available: "
                          ++ date)%string)])%list))
      /\
      (forall (vals : Series) (i : nat) (v : scalar),
          first_match dates date i ->
          getitem df currency = Return vals -> nth_error vals i = Some v ->
          lookup df date currency log =
          if isna v
          then (Raise (DataNotAvailable currency date),
                (log ++ [(ERROR,
                          ("An error occurred: Currency data not available: "
                           ++ currency ++ ", " ++ date)%string)])%list)
          else (Return (LookupResult currency date v), log))).
Proof.
  split.
  - apply lookup_invalid_currency.
  - intros dates _ Hvalid HDate. split.
    + now apply lookup_date_absent.
    + intros vals i v Hfirst Hcol Hv.
      now apply (lookup_at_first_match df date currency dates vals i v).
Qed.

Lemma lookup_check_order_witness :
  (* currency and date both wrong: the currency check fires *)
  outcome (lookup sample_dataframe "2023-11-19" "ASD") [] =
  Raise (CurrencyNotAvailable "ASD")
  /\ outcome (lookup sample_dataframe "2023-11-19" "SEK") [] =
     Raise (DateNotAvailable "2023-11-19")
  /\ outcome (lookup sample_dataframe "2023-11-22" "SEK") [] =
     Raise (DataNotAvailable "SEK" "2023-11-22").
Proof.
  unfold outcome. split; [| split].
  - destruct (lookup_check_order sample_dataframe "2023-11-19" "ASD" [])
      as [H _].
    rewrite H; reflexivity.
  - destruct (lookup_check_order sample_dataframe "2023-11-19" "SEK" [])
      as [_ H].
    destruct (H [Str "2023-11-20"; Str "2023-11-21"; Str "2023-11-22"]
                eq_refl eq_refl eq_refl) as [H1 _].
    rewrite H1; reflexivity.
  - destruct (lookup_check_order sample_dataframe "2023-11-22" "SEK" [])
      as [_ H].
    destruct (H [Str "2023-11-20"; Str "2023-11-21"; Str "2023-11-22"]
                eq_refl eq_refl eq_refl) as [_ H2].
    rewrite (H2 [Str "6.6260"; Str "9.1093"; Float64 nan] 2 (Float64 nan));
      [reflexivity | split; reflexivity | reflexivity | reflexivity].
Defined.

(** C2, as stated, fails on a table without a 'Date' column: the currency
    check still comes first (an unknown currency gives CurrencyNotAvailable),
    but with the valid currency USD the second failure is KeyError for
    'Date', where the claimed order gives DateNotAvailable for a date that no
    row has. *)
Lemma lookup_check_order_counterexample :
  well_formed (dropna_all_columns undated_frame) = true
  /\ columns_values (dropna_all_columns undated_frame) = ["USD"]
  /\ outcome (lookup (dropna_all_columns undated_frame) "2023-11-19" "ASD") []
     = Raise (CurrencyNotAvailable "ASD")
  /\ valid_currency (dropna_all_columns undated_frame) "USD" = true
  /\ outcome (lookup (dropna_all_columns undated_frame) "2023-11-19" "USD") []
     = Raise (KeyError "Date")
  /\ outcome (lookup (dropna_all_columns undated_frame) "2023-11-19" "USD") []
     <> Raise (DateNotAvailable "2023-11-19").
Proof.
  split; [reflexivity |]. split; [reflexivity |]. split; [reflexivity |].
  split; [reflexivity |]. split; [reflexivity | discriminate].
Qed.

(** C8. On a table (well-formed: distinct labels, columns of one length) in
    which rows match the date, also several of them, a lookup with a valid
    currency takes the value of the first matching row: it fails with
    DataNotAvailable exactly when that value is missing and returns it
    otherwise, whatever later matching rows hold. *)
Theorem lookup_takes_first_match (df : DataFrame) (date currency : string)
  (dates vals : Series) (i : nat) (v : scalar) (log : Log) :
  well_formed df = true ->
  valid_currency df currency = true ->
  getitem df "Date" = Return dates -> first_match dates date i ->
  getitem df currency = Return vals -> nth_error vals i = Some v ->
  (isna v = false ->
   lookup df date currency log = (Return (LookupResult currency date v), log))
  /\ (isna v = true ->
      lookup df date currency log =
      (Raise (DataNotAvailable currency date),
       (log ++ [(ERROR, ("An error occurred: Currency data not available: "
                         ++ currency ++ ", " ++ date)%string)])%list))
  /\ (outcome (lookup df date currency) log
      = Raise (DataNotAvailable currency date) <-> isna v = true).
Proof.
  intros _ Hvalid HDate Hfirst Hcol Hv.
  pose proof (lookup_at_first_match df date currency dates vals i v log
                Hvalid HDate Hfirst Hcol Hv) as Hrun.
  unfold outcome. rewrite Hrun. destruct (isna v); repeat split; intros;
    try reflexivity; discriminate.
Qed.

Lemma lookup_takes_first_match_witness :
  (* 2023-11-21 occurs in rows 1 and 2; row 1 decides *)
  outcome (lookup duplicate_frame "2023-11-21" "USD") [] =
  Raise (DataNotAvailable "USD" "2023-11-21")
  /\ outcome (lookup duplicate_frame "2023-11-21" "SEK") [] =
     Return (LookupResult "SEK" "2023-11-21" (Str "9.1093")).
Proof.
  unfold outcome. split.
  - destruct (lookup_takes_first_match duplicate_frame "2023-11-21" "USD"
                [Str "2023-11-20"; Str "2023-11-21"; Str "2023-11-21"]
                [Str "3.1415"; Float64 nan; Str "2.7182"] 1 (Float64 nan) [])
      as [_ [H _]];
      [reflexivity | reflexivity | reflexivity | split; reflexivity
      | reflexivity | reflexivity |].
    rewrite H; reflexivity.
  - destruct (lookup_takes_first_match duplicate_frame "2023-11-21" "SEK"
                [Str "2023-11-20"; Str "2023-11-21"; Str "2023-11-21"]
                [Str "6.6260"; Str "9.1093"; Float64 nan] 1 (Str "9.1093") [])
      as [H _];
      [reflexivity | reflexivity | reflexivity | split; reflexivity
      | reflexivity | reflexivity |].
    rewrite H; reflexivity.
Defined.

(** C10. Once [_validate_inputs] has passed, the rows selected for the date
    are not empty, so [result[0]] is in bounds: [get_value] returns a result
    or raises DataNotAvailable, and no IndexError. *)
Theorem validated_selection_in_bounds (df : DataFrame)
  (date currency : string) (log : Log) :
  well_formed df = true ->
  outcome (CurrencyExtractor._validate_inputs
             {| CurrencyExtractor.date := date;
                CurrencyExtractor.currency := currency;
                CurrencyExtractor.df := df |}) log = Return tt ->
  exists (dates : Series) (v : scalar) (rest : Series),
    getitem df "Date" = Return dates
    /\ loc_values df (Series_eq dates date) currency = Return (v :: rest)
    /\ item0 (v :: rest) = Return v
    /\ (lookup df date currency log
        = (Return (LookupResult currency date v), log)
        \/ outcome (lookup df date currency) log
           = Raise (DataNotAvailable currency date))
    /\ forall msg, outcome (lookup df date currency) log
                   <> Raise (IndexError msg).
Proof.
  intros Hwf Hvalidated. unfold outcome in *.
  rewrite validate_run in Hvalidated. rewrite lookup_run.
  destruct (valid_currency df currency) eqn:Hvalid; simpl in *;
    [| discriminate].
  destruct (getitem df "Date") as [dates | e] eqn:HDate; [| discriminate].
  destruct (str_in date dates) eqn:Hpresent; simpl in *; [| discriminate].
  unfold valid_currency in Hvalid. apply andb_prop in Hvalid.
  destruct Hvalid as [Hlabel _].
  destruct (label_in_getitem _ _ Hlabel) as [vals Hcol].
  rewrite Hcol.
  assert (Hlen : List.length vals = List.length dates).
  { rewrite (well_formed_length _ _ _ Hwf Hcol).
    now rewrite (well_formed_length _ _ _ Hwf HDate). }
  pose proof (select_nonempty date dates vals Hpresent Hlen) as Hne.
  destruct (select (Series_eq dates date) vals) as [| v rest] eqn:Hsel;
    [contradiction |].
  exists dates, v, rest.
  split; [reflexivity |].
  split; [unfold loc_values; now rewrite Hcol, Hsel |].
  split; [reflexivity |].
  split.
  - destruct (isna v); [right | left]; reflexivity.
  - intros msg. destruct (isna v); discriminate.
Qed.

Lemma validated_selection_in_bounds_witness :
  exists (dates : Series) (v : scalar) (rest : Series),
    getitem sample_dataframe "Date" = Return dates
    /\ loc_values sample_dataframe (Series_eq dates "2023-11-22") "SEK"
       = Return (v :: rest)
    /\ item0 (v :: rest) = Return v
    /\ (lookup sample_dataframe "2023-11-22" "SEK" []
        = (Return (LookupResult "SEK" "2023-11-22" v), [])
        \/ outcome (lookup sample_dataframe "2023-11-22" "SEK") []
           = Raise (DataNotAvailable "SEK" "2023-11-22"))
    /\ forall msg, outcome (lookup sample_dataframe "2023-11-22" "SEK") []
                   <> Raise (IndexError msg).
Proof.
  apply (validated_selection_in_bounds sample_dataframe "2023-11-22" "SEK" []);
    reflexivity.
Defined.

(* ------------------------------------------------------------------------ *)
(** ** The table of the running service *)

(** A table that start-up produced is the pruned frame of [pd.read_csv]. *)
Lemma build_df_inversion (ZIP_URL FILE_TO_EXTRACT : string)
  (requests_get : string -> Raises Response)
  (ZipFile_open : bytes -> Raises ZipFile)
  (read_csv : bytes -> Raises DataFrame)
  (log0 log1 : Log) (table : DataFrame) :
  App.build_df ZIP_URL FILE_TO_EXTRACT requests_get ZipFile_open read_csv log0
  = (Return table, log1) ->
  exists (data : bytes) (raw : DataFrame),
    read_csv data = Return raw /\ table = dropna_all_columns raw.
Proof.
  unfold App.build_df, bind, call, ret.
  destruct (ZipDownloader.get_file _ _ _) as [[zipped | e] l1];
    [| discriminate].
  destruct (Unzipper.get_data _ _ _) as [[data | e] l2]; [| discriminate].
  destruct (read_csv data) as [raw | e] eqn:Hcsv; [| discriminate].
  intros H. injection H as <- _. now exists data, raw.
Qed.

(** C1, as the code has it. In the table that start-up builds ([pd.read_csv]
    of the extracted member, then pruning), a lookup of a date and a currency
    whose value in the first row of that date is not missing returns that
    value as the table stores it, which is the value [pd.read_csv] put into
    the frame: the lookup converts nothing and pruning changes no value of a
    column it keeps. *)
Theorem pipeline_lookup_returns_stored_value
  (ZIP_URL FILE_TO_EXTRACT : string)
  (requests_get : string -> Raises Response)
  (ZipFile_open : bytes -> Raises ZipFile)
  (read_csv : bytes -> Raises DataFrame)
  (log0 log1 log : Log) (table : DataFrame) (date currency : string)
  (dates vals : Series) (i : nat) (v : scalar) :
  (forall data raw, read_csv data = Return raw -> well_formed raw = true) ->
  App.build_df ZIP_URL FILE_TO_EXTRACT requests_get ZipFile_open read_csv log0
  = (Return table, log1) ->
  getitem table "Date" = Return dates -> first_match dates date i ->
  currency <> "Date" ->
  getitem table currency = Return vals -> nth_error vals i = Some v ->
  isna v = false ->
  lookup table date currency log
  = (Return (LookupResult currency date v), log)
  /\ exists (data : bytes) (raw : DataFrame),
      read_csv data = Return raw
      /\ table = dropna_all_columns raw
      /\ getitem raw currency = Return vals.
Proof.
  intros Hframes Hbuild HDate Hfirst Hneq Hcol Hv Hnotna. split.
  - rewrite (lookup_at_first_match table date currency dates vals i v log);
      try assumption.
    + now rewrite Hnotna.
    + apply valid_currency_spec. split; [| assumption].
      apply label_in_spec. eapply getitem_label_in. eassumption.
  - destruct (build_df_inversion _ _ _ _ _ _ _ _ Hbuild)
      as [data [raw [Hcsv Htable]]].
    exists data, raw. repeat split; try assumption. subst table.
    apply (dropna_getitem raw currency vals); [| assumption].
    apply well_formed_NoDup. eapply Hframes. eassumption.
Qed.

Lemma pipeline_lookup_returns_stored_value_witness :
  lookup (dropna_all_columns numeric_frame) "2023-11-21" "USD" []
  = (Return (LookupResult "USD" "2023-11-21" (Float64 0.25)), [])
  /\ exists (data : bytes) (raw : DataFrame),
      (fun _ : bytes => Return numeric_frame) data = Return raw
      /\ dropna_all_columns numeric_frame = dropna_all_columns raw
      /\ getitem raw "USD" = Return [Float64 1.5; Float64 0.25].
Proof.
  apply (pipeline_lookup_returns_stored_value
           "https://example.org/rates.zip" "rates.csv"
           (fun _ => Return {| status_code := 200; content := [] |})
           (fun _ => Return [{| filename := "rates.csv"; read := Return [] |}])
           (fun _ => Return numeric_frame)
           []
           [(INFO, "File successfully downloaded: https://example.org/rates.zip");
            (INFO, "File successfully unzipped: rates.csv")]
           [] (dropna_all_columns numeric_frame) "2023-11-21" "USD"
           [Str "2023-11-20"; Str "2023-11-21"]
           [Float64 1.5; Float64 0.25] 1 (Float64 0.25)).
  - intros data raw H. injection H as <-. reflexivity.
  - reflexivity.
  - reflexivity.
  - split; reflexivity.
  - discriminate.
  - reflexivity.
  - reflexivity.
  - reflexivity.
Defined.

(** C1, as stated, fails: the USD fields [1.50] and [0.25] of the source text
    are read as numbers, and the lookup returns the float64 [1.5], no
    string. *)
Lemma lookup_numeric_column_counterexample :
  dropna_all_columns numeric_frame
  = [("Date", [Str "2023-11-20"; Str "2023-11-21"]);
     ("USD", [Float64 1.5; Float64 0.25])]
  /\ first_match [Str "2023-11-20"; Str "2023-11-21"] "2023-11-20" 0
  /\ isna (Float64 1.5) = false
  /\ lookup (dropna_all_columns numeric_frame) "2023-11-20" "USD" []
     = (Return (LookupResult "USD" "2023-11-20" (Float64 1.5)), [])
  /\ (forall s : string,
         lookup (dropna_all_columns numeric_frame) "2023-11-20" "USD" []
         <> (Return (LookupResult "USD" "2023-11-20" (Str s)), [])).
Proof.
  split; [reflexivity |]. split; [split; reflexivity |].
  split; [reflexivity |]. split; [reflexivity |].
  intros s H. discriminate H.
Qed.

(* ------------------------------------------------------------------------ *)
(** ** Pruning at build time *)


Lemma dropna_keeps (raw : DataFrame) (label : string) (col : Series) :
  NoDup (columns_values raw) ->
  getitem raw label = Return col -> all_null col = false ->
  getitem (dropna_all_columns raw) label = Return col.
Proof.
  intros Hnd Hget Hnotnull. apply In_getitem.
  - now apply dropna_NoDup.
  - apply dropna_In. split; [now apply getitem_Return | assumption].
Qed.




(* ------------------------------------------------------------------------ *)
(** ** Unzipper *)

Lemma extract_loop_missing (self : Unzipper.t) (infolist : list ZipInfo)
  (log : Log) :
  (forall info, In info infolist ->
                filename info <> Unzipper.file_to_extract self) ->
  Unzipper.extract_loop self infolist log =
  (Raise (FileNotFoundError
            ("Specified file not found: " ++ Unzipper.file_to_extract self)),
   log).
Proof.
  induction infolist as [| info rest IH]; intros Hnone; simpl.
  - reflexivity.
  - destruct (String.eqb_spec (filename info) (Unzipper.file_to_extract self))
      as [Heq | _].
    + exfalso. apply (Hnone info); [now left | assumption].
    + apply IH. intros info' Hin. apply Hnone. now right.
Qed.

Lemma extract_loop_found (self : Unzipper.t)
  (before after : list ZipInfo) (info : ZipInfo) (log : Log) :
  (forall info', In info' before ->
                 filename info' <> Unzipper.file_to_extract self) ->
  filename info = Unzipper.file_to_extract self ->
  Unzipper.extract_loop self (before ++ info :: after) log =
  match read info with
  | Return data =>
      (Return data,
       (log ++ [(INFO, ("File successfully unzipped: "
                        ++ Unzipper.file_to_extract self)%string)])%list)
  | Raise e => (Raise e, log)
  end.
Proof.
  intros Hbefore Hname.
  induction before as [| info' before IH]; simpl.
  - rewrite Hname, String.eqb_refl. run_py.
    destruct (read info); reflexivity.
  - destruct (String.eqb_spec (filename info')
                (Unzipper.file_to_extract self)) as [Heq | _].
    + exfalso. apply (Hbefore info'); [now left | assumption].
    + apply IH. intros i Hin. apply Hbefore. now right.
Qed.

(** C5. Extraction goes through the entries in stored order and compares
    names for equality: the content of the first entry named exactly as
    requested is returned, and when no entry has that name the whole list has
    been passed and the failure is FileNotFoundError (the specification's
    MemberNotFoundError). An entry data.csv is not found under Data.csv nor
    under data.csv followed by a space. *)
Theorem extract_file_first_exact_match (self : Unzipper.t) (log : Log) :
  (forall (before after : list ZipInfo) (info : ZipInfo) (data : bytes),
      (forall info', In info' before ->
                     filename info' <> Unzipper.file_to_extract self) ->
      filename info = Unzipper.file_to_extract self ->
      read info = Return data ->
      Unzipper._extract_file self (before ++ info :: after)%list log =
      (Return data,
       (log ++ [(INFO, ("File successfully unzipped: "
                        ++ Unzipper.file_to_extract self)%string)])%list))
  /\ (forall zip_ref : ZipFile,
         (forall info, In info zip_ref ->
                       filename info <> Unzipper.file_to_extract self) ->
         Unzipper._extract_file self zip_ref log =
         (Raise (FileNotFoundError
                   ("Specified file not found: "
                    ++ Unzipper.file_to_extract self)),
          (log ++ [(ERROR, ("Error extracting file: Specified file not found: "
                            ++ Unzipper.file_to_extract self)%string)])%list))
  /\ (forall (blob data : bytes) (requested : string),
         requested = "Data.csv" \/ requested = "data.csv " ->
         outcome
           (Unzipper._extract_file
              {| Unzipper.file_to_extract := requested;
                 Unzipper.zipped_data := blob |}
              [{| filename := "data.csv"; read := Return data |}]) log =
         Raise (FileNotFoundError ("Specified file not found: " ++ requested))).
Proof.
  split; [| split].
  - intros before after info data Hbefore Hname Hread.
    unfold Unzipper._extract_file, try_except.
    rewrite (extract_loop_found self before after info log Hbefore Hname).
    now rewrite Hread.
  - intros zip_ref Hnone. unfold Unzipper._extract_file, try_except.
    rewrite (extract_loop_missing self zip_ref log Hnone). reflexivity.
  - intros blob data requested [-> | ->]; reflexivity.
Qed.

Lemma extract_file_first_exact_match_witness :
  Unzipper._extract_file
    {| Unzipper.file_to_extract := "filename.txt"; Unzipper.zipped_data := [] |}
    ([{| filename := "readme.txt"; read := Return [] |}]
     ++ {| filename := "filename.txt";
           read := Return (list_byte_of_string "navigare necesse est") |}
     :: [{| filename := "filename.txt"; read := Return [] |}])%list []
  = (Return (list_byte_of_string "navigare necesse est"),
     [(INFO, "File successfully unzipped: filename.txt")])
  /\ outcome
       (Unzipper._extract_file
          {| Unzipper.file_to_extract := "Data.csv";
             Unzipper.zipped_data := [] |}
          [{| filename := "data.csv"; read := Return [] |}]) []
     = Raise (FileNotFoundError "Specified file not found: Data.csv").
Proof.
  split.
  - apply (proj1 (extract_file_first_exact_match
                    {| Unzipper.file_to_extract := "filename.txt";
                       Unzipper.zipped_data := [] |} [])).
    + simpl. intros info' [<- | []]. discriminate.
    + reflexivity.
    + reflexivity.
  - apply (proj2 (proj2 (extract_file_first_exact_match
                           {| Unzipper.file_to_extract := "Data.csv";
                              Unzipper.zipped_data := [] |} []))
             [] [] "Data.csv").
    now left.
Defined.

(** [get_data] on bytes that open as an archive: the outcome is that of
    [_extract_file]. *)
Lemma get_data_outcome (ZipFile_open : bytes -> Raises ZipFile)
  (self : Unzipper.t) (zip_ref : ZipFile) (log : Log) :
  ZipFile_open (Unzipper.zipped_data self) = Return zip_ref ->
  outcome (Unzipper.get_data ZipFile_open self) log =
  outcome (Unzipper._extract_file self zip_ref) log.
Proof.
  intros Hopen. unfold outcome, Unzipper.get_data, try_except, bind, call.
  rewrite Hopen.
  destruct (Unzipper._extract_file self zip_ref log) as [[data | e] log'];
    [reflexivity |].
  destruct (is_Exception e); reflexivity.
Qed.

(* ------------------------------------------------------------------------ *)
(** ** ZipDownloader *)

(** C6. When the request is answered, a status code other than 200 makes
    [get_file] raise HTTPError with that code in its message, and no bytes are
    returned; with status 200 the body of the response is returned as it
    is. *)
Theorem get_file_checks_status (requests_get : string -> Raises Response)
  (self : ZipDownloader.t) (response : Response) (log : Log) :
  requests_get (ZipDownloader.url self) = Return response ->
  (status_code response <> 200%Z ->
   ZipDownloader.get_file requests_get self log =
   (Raise (HTTPError ("HTTP error " ++ str_int (status_code response))),
    (log ++ [(ERROR, ("An error occurred: HTTP error "
                      ++ str_int (status_code response))%string)])%list))
  /\ (status_code response = 200%Z ->
      ZipDownloader.get_file requests_get self log =
      (Return (content response),
       (log ++ [(INFO, ("File successfully downloaded: "
                        ++ ZipDownloader.url self)%string)])%list)).
Proof.
  intros Hget.
  unfold ZipDownloader.get_file, ZipDownloader._make_request,
    ZipDownloader._check_response.
  run_py. rewrite Hget.
  destruct (Z.eqb_spec (status_code response) 200) as [Heq | Hneq]; simpl.
  - split; [contradiction | reflexivity].
  - split; [reflexivity | contradiction].
Qed.

Lemma get_file_checks_status_witness :
  ZipDownloader.get_file
    (fun _ => Return {| status_code := 404;
                        content := list_byte_of_string "0123456789" |})
    {| ZipDownloader.url := "http://whatever.com/file.zip" |} []
  = (Raise (HTTPError "HTTP error 404"),
     [(ERROR, "An error occurred: HTTP error 404")]).
Proof.
  apply (proj1 (get_file_checks_status
                  (fun _ => Return {| status_code := 404;
                                      content :=
                                        list_byte_of_string "0123456789" |})
                  {| ZipDownloader.url := "http://whatever.com/file.zip" |}
                  {| status_code := 404;
                     content := list_byte_of_string "0123456789" |}
                  [] eq_refl)).
  simpl. discriminate.
Defined.

(* ------------------------------------------------------------------------ *)
(** ** The HTTP endpoint *)

(** The view in terms of the lookup: every exception, from the lookup or from
    [jsonify], ends in the generic error response. *)
Lemma endpoint_run (df : DataFrame) (date currency : string) (log : Log) :
  App.endpoint df date currency log =
  match lookup df date currency log with
  | (Return result, log') =>
      match jsonify result with
      | Return json => (Return {| body := json; status := 200 |}, log')
      | Raise _ => (Return {| body := error_body; status := 404 |}, log')
      end
  | (Raise _, log') => (Return {| body := error_body; status := 404 |}, log')
  end.
Proof.
  unfold App.endpoint, lookup, try_except, bind, call, ret.
  destruct (CurrencyExtractor.get_value _ log) as [[result | e] log'];
    [| reflexivity].
  destruct (jsonify result); reflexivity.
Qed.

(** X20. Every failure of the lookup, whatever its kind, becomes the one
    response with the generic error body and status 404, so the body tells no
    kind from another and two failing requests get the same response; a
    lookup that returns a string or a float is answered with the JSON object
    of currency, date and value and status 200. *)
Theorem endpoint_collapses_failures (df : DataFrame) (date currency : string)
  (log : Log) :
  (forall (e : exc) (log' : Log),
      lookup df date currency log = (Raise e, log') ->
      App.endpoint df date currency log =
      (Return {| body := error_body; status := 404 |}, log'))
  /\ (forall (s : string) (log' : Log),
         lookup df date currency log
         = (Return (LookupResult currency date (Str s)), log') ->
         App.endpoint df date currency log =
         (Return {| body := JObject [("currency", JString currency);
                                     ("date", JString date);
                                     ("value", JString s)];
                    status := 200 |}, log'))
  /\ (forall (x : float) (log' : Log),
         lookup df date currency log
         = (Return (LookupResult currency date (Float64 x)), log') ->
         App.endpoint df date currency log =
         (Return {| body := JObject [("currency", JString currency);
                                     ("date", JString date);
                                     ("value", JNumber x)];
                    status := 200 |}, log'))
  /\ (forall (df2 : DataFrame) (date2 currency2 : string)
             (e e2 : exc) (log2 log' log2' : Log),
         lookup df date currency log = (Raise e, log') ->
         lookup df2 date2 currency2 log2 = (Raise e2, log2') ->
         outcome (App.endpoint df date currency) log
         = outcome (App.endpoint df2 date2 currency2) log2).
Proof.
  split; [| split; [| split]].
  - intros e log' H. now rewrite endpoint_run, H.
  - intros s log' H. now rewrite endpoint_run, H.
  - intros x log' H. now rewrite endpoint_run, H.
  - intros df2 date2 currency2 e e2 log2 log' log2' H H2.
    unfold outcome. now rewrite !endpoint_run, H, H2.
Qed.

Lemma endpoint_collapses_failures_witness :
  App.endpoint sample_dataframe "2023-11-19" "USD" []
  = (Return {| body := error_body; status := 404 |},
     [(ERROR, "An error occurred: Date not available: 2023-11-19")])
  /\ App.endpoint sample_dataframe "2023-11-20" "ASD" []
     = (Return {| body := error_body; status := 404 |},
        [(ERROR, "An error occurred: Currency not available: ASD")])
  /\ App.endpoint sample_dataframe "2023-11-22" "SEK" []
     = (Return {| body := error_body; status := 404 |},
        [(ERROR,
          "An error occurred: Currency data not available: SEK, 2023-11-22")])
  /\ App.endpoint sample_dataframe "2023-11-20" "USD" []
     = (Return {| body := JObject [("currency", JString "USD");
                                   ("date", JString "2023-11-20");
                                   ("value", JString "3.1415")];
                  status := 200 |}, []).
Proof.
  split; [| split; [| split]].
  - apply (proj1 (endpoint_collapses_failures sample_dataframe
                    "2023-11-19" "USD" [])
             (DateNotAvailable "2023-11-19")).
    reflexivity.
  - apply (proj1 (endpoint_collapses_failures sample_dataframe
                    "2023-11-20" "ASD" [])
             (CurrencyNotAvailable "ASD")).
    reflexivity.
  - apply (proj1 (endpoint_collapses_failures sample_dataframe
                    "2023-11-22" "SEK" [])
             (DataNotAvailable "SEK" "2023-11-22")).
    reflexivity.
  - apply (proj1 (proj2 (endpoint_collapses_failures sample_dataframe
                           "2023-11-20" "USD" []))
             "3.1415").
    reflexivity.
Defined.

(** C9. The view does not keep the success clause of the claim: in a column
    of whole numbers the lookup succeeds with a numpy int64 and logs nothing,
    [jsonify] raises on that value inside the [try], and the answer is the
    generic error with status 404, the one a failed lookup gets. The same
    request on a column of floats is answered with the value and status
    200. *)
Lemma endpoint_integer_value_answers_404 :
  well_formed integer_frame = true
  /\ lookup integer_frame "2023-11-20" "JPY" []
     = (Return (LookupResult "JPY" "2023-11-20" (Int64 150)), [])
  /\ App.endpoint integer_frame "2023-11-20" "JPY" []
     = (Return {| body := error_body; status := 404 |}, [])
  /\ App.endpoint integer_frame "2023-11-19" "JPY" []
     = (Return {| body := error_body; status := 404 |},
        [(ERROR, "An error occurred: Date not available: 2023-11-19")])
  /\ App.endpoint numeric_frame "2023-11-20" "USD" []
     = (Return {| body := JObject [("currency", JString "USD");
                                   ("date", JString "2023-11-20");
                                   ("value", JNumber 1.5)];
                  status := 200 |}, []).
Proof.
  split; [| split; [| split; [| split]]]; reflexivity.
Qed.

(* ------------------------------------------------------------------------ *)
(** ** Further properties: the lookup *)

Lemma getitem_Raise (df : DataFrame) (label : string) (e : exc) :
  getitem df label = Raise e -> e = KeyError label.
Proof.
  unfold getitem. destruct (find _ df); [discriminate |].
  intros H. now injection H as <-.
Qed.

(** The first value a mask selects sits in the first matching row. *)
Lemma select_head_first_match (date : string) :
  forall (dates vals : Series) (v : scalar) (rest : Series),
    select (Series_eq dates date) vals = v :: rest ->
    exists i, first_match dates date i /\ nth_error vals i = Some v.
Proof.
  unfold first_match.
  induction dates as [| x dates IH]; intros vals v rest Hsel;
    [discriminate |].
  destruct vals as [| y vals]; [discriminate |]. simpl in Hsel.
  destruct (eq_str date x) eqn:Hx.
  - injection Hsel as -> _. apply eq_str_true in Hx. subst x.
    exists 0. repeat split.
  - destruct (IH vals v rest Hsel) as [i [[Hnth Hbefore] Hv]].
    exists (S i). simpl. rewrite Hx. repeat split; assumption.
Qed.

(** X1. A lookup that returns has written nothing to the log, and what it
    returns is the requested currency and date with the value of the first
    row of that date, which is not missing: no lookup returns a missing
    value, nor a value for the label 'Date'. *)
Theorem lookup_success_inversion (df : DataFrame) (date currency : string)
  (log log' : Log) (result : dict) :
  lookup df date currency log = (Return result, log') ->
  log' = log
  /\ currency <> "Date"
  /\ exists (dates vals : Series) (i : nat) (v : scalar),
      getitem df "Date" = Return dates
      /\ getitem df currency = Return vals
      /\ first_match dates date i
      /\ nth_error vals i = Some v
      /\ isna v = false
      /\ result = LookupResult currency date v.
Proof.
  rewrite lookup_run. unfold lookup_failure.
  destruct (valid_currency df currency) eqn:Hvalid; simpl; [| discriminate].
  destruct (getitem df "Date") as [dates | e]; [| discriminate].
  destruct (str_in date dates); simpl; [| discriminate].
  destruct (getitem df currency) as [vals | e]; [| discriminate].
  destruct (select (Series_eq dates date) vals) as [| v rest] eqn:Hsel;
    [discriminate |].
  destruct (isna v) eqn:Hv; [discriminate |].
  intros H. injection H as <- <-.
  apply valid_currency_spec in Hvalid. destruct Hvalid as [_ Hneq].
  destruct (select_head_first_match _ _ _ _ _ Hsel) as [i [Hfirst Hnth]].
  split; [reflexivity |]. split; [assumption |].
  exists dates, vals, i, v. repeat split; try assumption; apply Hfirst.
Qed.

Lemma lookup_success_inversion_witness :
  [] = ([] : Log)
  /\ "USD" <> "Date"
  /\ exists (dates vals : Series) (i : nat) (v : scalar),
      getitem sample_dataframe "Date" = Return dates
      /\ getitem sample_dataframe "USD" = Return vals
      /\ first_match dates "2023-11-21" i
      /\ nth_error vals i = Some v
      /\ isna v = false
      /\ LookupResult "USD" "2023-11-21" (Str "1.4142")
         = LookupResult "USD" "2023-11-21" v.
Proof.
  apply (lookup_success_inversion sample_dataframe "2023-11-21" "USD" [] []
           (LookupResult "USD" "2023-11-21" (Str "1.4142"))).
  reflexivity.
Defined.

(** X2. A lookup that fails raises an [Exception] and has written exactly one
    ERROR record, the text of that exception after ['An error occurred: ']. *)
Theorem lookup_failure_logged_once (df : DataFrame) (date currency : string)
  (log log' : Log) (e : exc) :
  lookup df date currency log = (Raise e, log') ->
  is_Exception e = true
  /\ log' = (log ++ [(ERROR, ("An error occurred: " ++ str_exc e)%string)])%list.
Proof.
  rewrite lookup_run. unfold lookup_failure, logged.
  assert (Hkey : forall label e0 (l : Log),
             getitem df label = Raise e0 ->
             (Raise e0 : Raises dict,
              if is_Exception e0
              then (log ++ [(ERROR, ("An error occurred: "
                                     ++ str_exc e0)%string)])%list
              else log) = (Raise e, l) ->
             is_Exception e = true
             /\ l = (log ++ [(ERROR, ("An error occurred: "
                                      ++ str_exc e)%string)])%list).
  { intros label e0 l Hget H. apply getitem_Raise in Hget. subst e0.
    simpl in H. injection H as <- <-. split; reflexivity. }
  destruct (valid_currency df currency); simpl.
  - destruct (getitem df "Date") as [dates | e0] eqn:HDate;
      [| now apply (Hkey "Date" e0)].
    destruct (str_in date dates); simpl.
    + destruct (getitem df currency) as [vals | e0] eqn:Hcol;
        [| now apply (Hkey currency e0)].
      destruct (select (Series_eq dates date) vals) as [| v rest].
      * intros H. injection H as <- <-. split; reflexivity.
      * destruct (isna v); [| discriminate].
        intros H. injection H as <- <-. split; reflexivity.
    + intros H. injection H as <- <-. split; reflexivity.
  - intros H. injection H as <- <-. split; reflexivity.
Qed.

Lemma lookup_failure_logged_once_witness :
  is_Exception (DateNotAvailable "2023-11-19") = true
  /\ [(ERROR, "An error occurred: Date not available: 2023-11-19")]
     = ([] ++ [(ERROR, ("An error occurred: "
                        ++ str_exc (DateNotAvailable "2023-11-19"))%string)])%list.
Proof.
  apply (lookup_failure_logged_once sample_dataframe "2023-11-19" "USD" []).
  reflexivity.
Defined.

(** X3. On a table without a 'Date' column, a lookup of a valid currency
    fails with KeyError for the label 'Date', whatever the date. *)
Theorem lookup_without_date_column (df : DataFrame) (date currency : string)
  (log : Log) :
  valid_currency df currency = true ->
  label_in "Date" (columns_values df) = false ->
  lookup df date currency log =
  (Raise (KeyError "Date"),
   (log ++ [(ERROR, "An error occurred: 'Date'")])%list).
Proof.
  intros Hvalid Hmissing. rewrite lookup_run, Hvalid. simpl.
  now rewrite (getitem_missing _ _ Hmissing).
Qed.

Lemma lookup_without_date_column_witness :
  lookup (dropna_all_columns undated_frame) "2023-11-20" "USD" [] =
  (Raise (KeyError "Date"), [(ERROR, "An error occurred: 'Date'")]).
Proof.
  apply (lookup_without_date_column (dropna_all_columns undated_frame)
           "2023-11-20" "USD" []); reflexivity.
Defined.

(** X4. On a well-formed table that has its 'Date' column, the failures of a
    lookup are the three of the contract and no other: CurrencyNotAvailable
    for the requested currency, DateNotAvailable for the requested date, or
    DataNotAvailable for both. *)
Theorem lookup_failure_kinds (df : DataFrame) (date currency : string)
  (dates : Series) (log log' : Log) (e : exc) :
  well_formed df = true -> getitem df "Date" = Return dates ->
  lookup df date currency log = (Raise e, log') ->
  e = CurrencyNotAvailable currency
  \/ e = DateNotAvailable date
  \/ e = DataNotAvailable currency date.
Proof.
  intros Hwf HDate. rewrite lookup_run, HDate. unfold lookup_failure.
  destruct (valid_currency df currency) eqn:Hvalid; simpl.
  - destruct (str_in date dates) eqn:Hpresent; simpl.
    + unfold valid_currency in Hvalid. apply andb_prop in Hvalid.
      destruct Hvalid as [Hlabel _].
      destruct (label_in_getitem _ _ Hlabel) as [vals Hcol]. rewrite Hcol.
      assert (Hlen : List.length vals = List.length dates).
      { rewrite (well_formed_length _ _ _ Hwf Hcol).
        now rewrite (well_formed_length _ _ _ Hwf HDate). }
      pose proof (select_nonempty date dates vals Hpresent Hlen) as Hne.
      destruct (select (Series_eq dates date) vals) as [| v rest];
        [contradiction |].
      destruct (isna v); [| discriminate].
      intros H. injection H as <- _. now right; right.
    + intros H. injection H as <- _. now right; left.
  - intros H. injection H as <- _. now left.
Qed.

Lemma lookup_failure_kinds_witness :
  DataNotAvailable "SEK" "2023-11-22" = CurrencyNotAvailable "SEK"
  \/ DataNotAvailable "SEK" "2023-11-22" = DateNotAvailable "2023-11-22"
  \/ DataNotAvailable "SEK" "2023-11-22" = DataNotAvailable "SEK" "2023-11-22".
Proof.
  apply (lookup_failure_kinds sample_dataframe "2023-11-22" "SEK"
           [Str "2023-11-20"; Str "2023-11-21"; Str "2023-11-22"] []
           [(ERROR,
             "An error occurred: Currency data not available: SEK, 2023-11-22")]);
    reflexivity.
Defined.

(** X5. The three failures of a lookup never coincide: the exception raised
    tells its kind, and the currency or the date of the first two. *)
Theorem lookup_failures_distinct (c c' d d' : string) :
  CurrencyNotAvailable c <> DateNotAvailable d
  /\ CurrencyNotAvailable c <> DataNotAvailable c' d
  /\ DateNotAvailable d <> DataNotAvailable c d'
  /\ (CurrencyNotAvailable c = CurrencyNotAvailable c' -> c = c')
  /\ (DateNotAvailable d = DateNotAvailable d' -> d = d').
Proof.
  unfold CurrencyNotAvailable, DateNotAvailable, DataNotAvailable. simpl.
  repeat split; try discriminate; intros H; now injection H.
Qed.

(* ------------------------------------------------------------------------ *)
(** ** Further properties: pruning and the lookup *)

Lemma dropna_label_in (raw : DataFrame) (label : string) :
  label_in label (columns_values (dropna_all_columns raw)) = true ->
  label_in label (columns_values raw) = true.
Proof.
  rewrite !label_in_spec. unfold columns_values, dropna_all_columns.
  rewrite !in_map_iff. intros [c [Hfst Hc]]. apply filter_In in Hc.
  exists c. tauto.
Qed.

(** X6. Pruning changes no answer except for the columns it drops: when the
    'Date' column holds a value and the requested currency is not a column
    without values, the lookup on the pruned table is the lookup on the frame
    as read, result, failure and log alike. *)
Theorem lookup_after_dropna (raw : DataFrame) (date currency : string)
  (dates : Series) (log : Log) :
  well_formed raw = true ->
  getitem raw "Date" = Return dates -> all_null dates = false ->
  (forall col, getitem raw currency = Return col -> all_null col = false) ->
  lookup (dropna_all_columns raw) date currency log
  = lookup raw date currency log.
Proof.
  intros Hwf HDate Hdates Hcol.
  pose proof (well_formed_NoDup _ Hwf) as Hnd.
  rewrite !lookup_run.
  rewrite (dropna_keeps raw "Date" dates Hnd HDate Hdates), HDate.
  destruct (getitem raw currency) as [col | e] eqn:Hget.
  - pose proof (dropna_keeps raw currency col Hnd Hget (Hcol col eq_refl))
      as Hkept.
    rewrite Hkept. unfold valid_currency.
    now rewrite (getitem_label_in _ _ _ Hkept), (getitem_label_in _ _ _ Hget).
  - assert (Hraw : label_in currency (columns_values raw) = false).
    { destruct (label_in currency (columns_values raw)) eqn:E;
        [| reflexivity].
      destruct (label_in_getitem _ _ E) as [col Hcol']. congruence. }
    assert (Hpruned : label_in currency
                        (columns_values (dropna_all_columns raw)) = false).
    { destruct (label_in currency (columns_values (dropna_all_columns raw)))
        eqn:E; [| reflexivity].
      apply dropna_label_in in E. congruence. }
    unfold valid_currency. rewrite Hraw, Hpruned. reflexivity.
Qed.

Lemma lookup_after_dropna_witness :
  lookup (dropna_all_columns numeric_frame) "2023-11-21" "USD" []
  = lookup numeric_frame "2023-11-21" "USD" [].
Proof.
  apply (lookup_after_dropna numeric_frame "2023-11-21" "USD"
           [Str "2023-11-20"; Str "2023-11-21"] []).
  - reflexivity.
  - reflexivity.
  - reflexivity.
  - intros col H. injection H as <-. reflexivity.
Defined.

(** X7. The table that start-up builds is a frame whenever [pd.read_csv]
    returns frames: after pruning its labels are still distinct and its
    columns still have one length. *)
Theorem build_df_well_formed (ZIP_URL FILE_TO_EXTRACT : string)
  (requests_get : string -> Raises Response)
  (ZipFile_open : bytes -> Raises ZipFile)
  (read_csv : bytes -> Raises DataFrame)
  (log0 log1 : Log) (table : DataFrame) :
  (forall data raw, read_csv data = Return raw -> well_formed raw = true) ->
  App.build_df ZIP_URL FILE_TO_EXTRACT requests_get ZipFile_open read_csv log0
  = (Return table, log1) ->
  well_formed table = true.
Proof.
  intros Hframes Hbuild.
  destruct (build_df_inversion _ _ _ _ _ _ _ _ Hbuild)
    as [data [raw [Hcsv ->]]].
  apply dropna_well_formed. eapply Hframes. eassumption.
Qed.

Lemma build_df_well_formed_witness :
  well_formed (dropna_all_columns numeric_frame) = true.
Proof.
  apply (build_df_well_formed
           "https://example.org/rates.zip" "rates.csv"
           (fun _ => Return {| status_code := 200; content := [] |})
           (fun _ => Return [{| filename := "rates.csv"; read := Return [] |}])
           (fun _ => Return numeric_frame)
           []
           [(INFO, "File successfully downloaded: https://example.org/rates.zip");
            (INFO, "File successfully unzipped: rates.csv")]
           (dropna_all_columns numeric_frame)).
  - intros data raw H. injection H as <-. reflexivity.
  - reflexivity.
Defined.

(* ------------------------------------------------------------------------ *)
(** ** Further properties: the endpoint *)

Lemma jsonify_LookupResult (currency date : string) (v : scalar) :
  jsonify (LookupResult currency date v) =
  match json_scalar v with
  | Return j =>
      Return (JObject [("currency", JString currency);
                       ("date", JString date); ("value", j)])
  | Raise e => Raise e
  end.
Proof.
  unfold jsonify, LookupResult. simpl. destruct (json_scalar v); reflexivity.
Qed.

(** X8. The view never raises: for every table, date and currency it returns
    a response, with status 200 or with status 404 and the generic error
    body, and the log it leaves is the log of the lookup, to which the view
    adds nothing. *)
Theorem endpoint_always_responds (df : DataFrame) (date currency : string)
  (log : Log) :
  exists response : HttpResponse,
    App.endpoint df date currency log
    = (Return response, snd (lookup df date currency log))
    /\ (status response = 200%Z
        \/ (status response = 404%Z /\ body response = error_body)).
Proof.
  rewrite endpoint_run.
  destruct (lookup df date currency log) as [[result | e] log']; simpl.
  - destruct (jsonify result) as [json | e].
    + eexists. split; [reflexivity | now left].
    + eexists. split; [reflexivity | now right].
  - eexists. split; [reflexivity | now right].
Qed.

(** What a lookup returns, when it returns. *)
Lemma lookup_Return_shape (df : DataFrame) (date currency : string)
  (log log' : Log) (result : dict) :
  lookup df date currency log = (Return result, log') ->
  log' = log
  /\ exists v, isna v = false /\ result = LookupResult currency date v.
Proof.
  rewrite lookup_run. unfold lookup_failure.
  destruct (valid_currency df currency); simpl; [| discriminate].
  destruct (getitem df "Date") as [dates | e]; [| discriminate].
  destruct (str_in date dates); simpl; [| discriminate].
  destruct (getitem df currency) as [vals | e]; [| discriminate].
  destruct (select (Series_eq dates date) vals) as [| v rest];
    [discriminate |].
  destruct (isna v) eqn:Hv; [discriminate |].
  intros H. injection H as <- <-. split; [reflexivity |]. now exists v.
Qed.

(** X9. A response with status 200 is only given for a lookup that returned:
    its body is the JSON object of the requested currency and date and of
    the returned value, which is not missing, and nothing was logged. *)
Theorem endpoint_success_inversion (df : DataFrame) (date currency : string)
  (log log' : Log) (response : HttpResponse) :
  App.endpoint df date currency log = (Return response, log') ->
  status response = 200%Z ->
  log' = log
  /\ exists (v : scalar) (j : Json),
      lookup df date currency log
      = (Return (LookupResult currency date v), log)
      /\ isna v = false
      /\ json_scalar v = Return j
      /\ body response = JObject [("currency", JString currency);
                                   ("date", JString date); ("value", j)].
Proof.
  rewrite endpoint_run.
  destruct (lookup df date currency log) as [[result | e] l] eqn:Hlookup.
  - destruct (lookup_Return_shape _ _ _ _ _ _ Hlookup) as [-> [v [Hv ->]]].
    rewrite jsonify_LookupResult.
    destruct (json_scalar v) as [j | e] eqn:Hj.
    + intros H _. injection H as <- <-. split; [reflexivity |].
      exists v, j. repeat split; assumption.
    + intros H Hstatus. injection H as <- _. discriminate Hstatus.
  - intros H Hstatus. injection H as <- _. discriminate Hstatus.
Qed.

Lemma endpoint_success_inversion_witness :
  [] = ([] : Log)
  /\ exists (v : scalar) (j : Json),
      lookup numeric_frame "2023-11-20" "USD" []
      = (Return (LookupResult "USD" "2023-11-20" v), [])
      /\ isna v = false
      /\ json_scalar v = Return j
      /\ body {| body := JObject [("currency", JString "USD");
                                  ("date", JString "2023-11-20");
                                  ("value", JNumber 1.5)];
                 status := 200 |}
         = JObject [("currency", JString "USD");
                    ("date", JString "2023-11-20"); ("value", j)].
Proof.
  apply (endpoint_success_inversion numeric_frame "2023-11-20" "USD" [] []
           {| body := JObject [("currency", JString "USD");
                               ("date", JString "2023-11-20");
                               ("value", JNumber 1.5)];
              status := 200 |}); reflexivity.
Defined.

(** X10. When the lookup returns a value that [jsonify] rejects, a numpy
    integer or a numpy boolean, the exception is raised inside the [try] of
    the view and the answer is the generic error with status 404; nothing is
    logged. *)
Theorem endpoint_unserialisable_value (df : DataFrame)
  (date currency : string) (v : scalar) (log log' : Log) :
  lookup df date currency log
  = (Return (LookupResult currency date v), log') ->
  (exists n, v = Int64 n) \/ (exists b, v = Bool_ b) ->
  App.endpoint df date currency log
  = (Return {| body := error_body; status := 404 |}, log').
Proof.
  intros Hlookup Hv. rewrite endpoint_run, Hlookup, jsonify_LookupResult.
  destruct Hv as [[n ->] | [b ->]]; reflexivity.
Qed.

Lemma endpoint_unserialisable_value_witness :
  App.endpoint integer_frame "2023-11-21" "JPY" []
  = (Return {| body := error_body; status := 404 |}, []).
Proof.
  apply (endpoint_unserialisable_value integer_frame "2023-11-21" "JPY"
           (Int64 151) [] []).
  - reflexivity.
  - left. now exists 151%Z.
Defined.

(* ------------------------------------------------------------------------ *)
(** ** Further properties: ZipDownloader *)

(** X11. When the request itself fails, [get_file] raises the same exception
    and returns nothing. A [RequestException] is logged twice, by
    [_make_request] and by [get_file]; another [Exception] once, by
    [get_file]; an exception that is no [Exception] is not logged. *)
Theorem get_file_request_failure (requests_get : string -> Raises Response)
  (self : ZipDownloader.t) (e : exc) (log : Log) :
  requests_get (ZipDownloader.url self) = Raise e ->
  ZipDownloader.get_file requests_get self log =
  (Raise e,
   logged "An error occurred: " e
     (if is_RequestException e
      then (log ++ [(ERROR, ("Error making request: " ++ str_exc e)%string)])%list
      else log)).
Proof.
  intros Hget. unfold ZipDownloader.get_file, ZipDownloader._make_request.
  run_py. rewrite Hget. destruct e; reflexivity.
Qed.

Lemma get_file_request_failure_witness :
  ZipDownloader.get_file
    (fun _ => Raise (RequestException "Connection refused"))
    {| ZipDownloader.url := "http://whatever.com/file.zip" |} []
  = (Raise (RequestException "Connection refused"),
     [(ERROR, "Error making request: Connection refused");
      (ERROR, "An error occurred: Connection refused")]).
Proof.
  apply (get_file_request_failure
           (fun _ => Raise (RequestException "Connection refused"))
           {| ZipDownloader.url := "http://whatever.com/file.zip" |}
           (RequestException "Connection refused") []).
  reflexivity.
Defined.

(** The whole of [get_file], case by case. *)
Lemma get_file_run (requests_get : string -> Raises Response)
  (self : ZipDownloader.t) (log : Log) :
  ZipDownloader.get_file requests_get self log =
  match requests_get (ZipDownloader.url self) with
  | Return response =>
      if (status_code response =? 200)%Z
      then (Return (content response),
            (log ++ [(INFO, ("File successfully downloaded: "
                             ++ ZipDownloader.url self)%string)])%list)
      else (Raise (HTTPError ("HTTP error " ++ str_int (status_code response))),
            (log ++ [(ERROR, ("An error occurred: HTTP error "
                              ++ str_int (status_code response))%string)])%list)
  | Raise e =>
      (Raise e,
       logged "An error occurred: " e
         (if is_RequestException e
          then (log ++ [(ERROR, ("Error making request: "
                                 ++ str_exc e)%string)])%list
          else log))
  end.
Proof.
  unfold ZipDownloader.get_file, ZipDownloader._make_request,
    ZipDownloader._check_response.
  run_py.
  destruct (requests_get (ZipDownloader.url self)) as [response | e].
  - destruct (status_code response =? 200)%Z; reflexivity.
  - destruct e; reflexivity.
Qed.

(** X12. The bytes that [get_file] returns are the body of a response with
    status 200 to a request for its URL, unchanged; it returns bytes in no
    other case, and then it has logged one INFO record. *)
Theorem get_file_success_inversion (requests_get : string -> Raises Response)
  (self : ZipDownloader.t) (data : bytes) (log log' : Log) :
  ZipDownloader.get_file requests_get self log = (Return data, log') ->
  exists response : Response,
    requests_get (ZipDownloader.url self) = Return response
    /\ status_code response = 200%Z
    /\ content response = data
    /\ log' = (log ++ [(INFO, ("File successfully downloaded: "
                               ++ ZipDownloader.url self)%string)])%list.
Proof.
  rewrite get_file_run.
  destruct (requests_get (ZipDownloader.url self)) as [response | e];
    [| discriminate].
  destruct (Z.eqb_spec (status_code response) 200) as [Heq | Hneq];
    [| discriminate].
  intros H. injection H as <- <-. now exists response.
Qed.

Lemma get_file_success_inversion_witness :
  exists response : Response,
    (fun _ : string =>
       Return {| status_code := 200;
                 content := list_byte_of_string "0123456789" |})
      "http://whatever.com/file.zip" = Return response
    /\ status_code response = 200%Z
    /\ content response = list_byte_of_string "0123456789"
    /\ [(INFO, "File successfully downloaded: http://whatever.com/file.zip")]
       = ([] ++ [(INFO, ("File successfully downloaded: "
                         ++ "http://whatever.com/file.zip")%string)])%list.
Proof.
  apply (get_file_success_inversion
           (fun _ => Return {| status_code := 200;
                               content := list_byte_of_string "0123456789" |})
           {| ZipDownloader.url := "http://whatever.com/file.zip" |}
           (list_byte_of_string "0123456789") []).
  reflexivity.
Defined.

(* ------------------------------------------------------------------------ *)
(** ** Further properties: Unzipper *)

Lemma extract_loop_Return (self : Unzipper.t) (data : bytes) :
  forall (infolist : list ZipInfo) (log log' : Log),
    Unzipper.extract_loop self infolist log = (Return data, log') ->
    exists (before after : list ZipInfo) (info : ZipInfo),
      infolist = (before ++ info :: after)%list
      /\ (forall info', In info' before ->
                        filename info' <> Unzipper.file_to_extract self)
      /\ filename info = Unzipper.file_to_extract self
      /\ read info = Return data
      /\ log' = (log ++ [(INFO, ("File successfully unzipped: "
                                 ++ Unzipper.file_to_extract self)%string)])%list.
Proof.
  induction infolist as [| info rest IH]; intros log log' Hrun; simpl in Hrun.
  - discriminate.
  - destruct (String.eqb_spec (filename info) (Unzipper.file_to_extract self))
      as [Heq | Hneq].
    + revert Hrun. run_py. destruct (read info) as [d | e] eqn:Hread;
        [| discriminate].
      intros H. injection H as <- <-.
      exists [], rest, info. repeat split; try assumption.
      intros info' [].
    + destruct (IH log log' Hrun)
        as [before [after [info0 [-> [Hbefore [Hname [Hread Hlog]]]]]]].
      exists (info :: before), after, info0. repeat split; try assumption.
      intros info' [<- | Hin]; [assumption | now apply Hbefore].
Qed.

Lemma extract_file_Return (self : Unzipper.t) (zip_ref : ZipFile)
  (data : bytes) (log log' : Log) :
  Unzipper._extract_file self zip_ref log = (Return data, log') ->
  Unzipper.extract_loop self zip_ref log = (Return data, log').
Proof.
  unfold Unzipper._extract_file, try_except.
  destruct (Unzipper.extract_loop self zip_ref log) as [[d | e] l];
    [trivial |].
  run_py. destruct (is_Exception e); discriminate.
Qed.

(** X13. The content that [_extract_file] returns is what reading the first
    entry named exactly as requested gave: it never returns the content of an
    entry with another name, nor of a later entry of that name. *)
Theorem extract_file_success_inversion (self : Unzipper.t)
  (zip_ref : ZipFile) (data : bytes) (log log' : Log) :
  Unzipper._extract_file self zip_ref log = (Return data, log') ->
  exists (before after : list ZipInfo) (info : ZipInfo),
    zip_ref = (before ++ info :: after)%list
    /\ (forall info', In info' before ->
                      filename info' <> Unzipper.file_to_extract self)
    /\ filename info = Unzipper.file_to_extract self
    /\ read info = Return data
    /\ log' = (log ++ [(INFO, ("File successfully unzipped: "
                               ++ Unzipper.file_to_extract self)%string)])%list.
Proof.
  intros H. apply extract_file_Return in H.
  now apply (extract_loop_Return self data zip_ref log log').
Qed.

Lemma extract_file_success_inversion_witness :
  exists (before after : list ZipInfo) (info : ZipInfo),
    sample_zip = (before ++ info :: after)%list
    /\ (forall info', In info' before -> filename info' <> "filename.txt")
    /\ filename info = "filename.txt"
    /\ read info = Return (list_byte_of_string "navigare necesse est")
    /\ [(INFO, "File successfully unzipped: filename.txt")]
       = ([] ++ [(INFO, ("File successfully unzipped: "
                         ++ "filename.txt")%string)])%list.
Proof.
  apply (extract_file_success_inversion
           {| Unzipper.file_to_extract := "filename.txt";
              Unzipper.zipped_data := [] |}
           sample_zip (list_byte_of_string "navigare necesse est") []).
  reflexivity.
Defined.

(** X14. When reading the first entry of the requested name fails,
    [_extract_file] raises that error, logged once if it is an [Exception]:
    it does not go on to a later entry of the same name. *)
Theorem extract_file_damaged_entry (self : Unzipper.t)
  (before after : list ZipInfo) (info : ZipInfo) (e : exc) (log : Log) :
  (forall info', In info' before ->
                 filename info' <> Unzipper.file_to_extract self) ->
  filename info = Unzipper.file_to_extract self ->
  read info = Raise e ->
  Unzipper._extract_file self (before ++ info :: after)%list log =
  (Raise e, logged "Error extracting file: " e log).
Proof.
  intros Hbefore Hname Hread. unfold Unzipper._extract_file, try_except.
  rewrite (extract_loop_found self before after info log Hbefore Hname), Hread.
  run_py. destruct (is_Exception e); reflexivity.
Qed.

Lemma extract_file_damaged_entry_witness :
  Unzipper._extract_file
    {| Unzipper.file_to_extract := "rates.csv"; Unzipper.zipped_data := [] |}
    ([] ++ {| filename := "rates.csv";
              read := Raise (BadZipFile "Bad CRC-32 for file 'rates.csv'") |}
        :: [{| filename := "rates.csv"; read := Return [] |}])%list []
  = (Raise (BadZipFile "Bad CRC-32 for file 'rates.csv'"),
     [(ERROR, "Error extracting file: Bad CRC-32 for file 'rates.csv'")]).
Proof.
  apply (extract_file_damaged_entry
           {| Unzipper.file_to_extract := "rates.csv";
              Unzipper.zipped_data := [] |}
           [] [{| filename := "rates.csv"; read := Return [] |}]
           {| filename := "rates.csv";
              read := Raise (BadZipFile "Bad CRC-32 for file 'rates.csv'") |}
           (BadZipFile "Bad CRC-32 for file 'rates.csv'") []).
  - intros info' [].
  - reflexivity.
  - reflexivity.
Defined.

(** X15. On bytes that do not open as an archive, [get_data] raises the error
    of [zipfile.ZipFile], logged once if it is an [Exception], and looks for
    no member. *)
Theorem get_data_bad_archive (ZipFile_open : bytes -> Raises ZipFile)
  (self : Unzipper.t) (e : exc) (log : Log) :
  ZipFile_open (Unzipper.zipped_data self) = Raise e ->
  Unzipper.get_data ZipFile_open self log =
  (Raise e, logged "An error occurred: " e log).
Proof.
  intros Hopen. unfold Unzipper.get_data. run_py. rewrite Hopen.
  destruct (is_Exception e); reflexivity.
Qed.

Lemma get_data_bad_archive_witness :
  Unzipper.get_data (fun _ => Raise (BadZipFile "File is not a zip file"))
    {| Unzipper.file_to_extract := "rates.csv";
       Unzipper.zipped_data := list_byte_of_string "0123456789" |} []
  = (Raise (BadZipFile "File is not a zip file"),
     [(ERROR, "An error occurred: File is not a zip file")]).
Proof.
  apply (get_data_bad_archive
           (fun _ => Raise (BadZipFile "File is not a zip file"))
           {| Unzipper.file_to_extract := "rates.csv";
              Unzipper.zipped_data := list_byte_of_string "0123456789" |}
           (BadZipFile "File is not a zip file") []).
  reflexivity.
Defined.

Lemma get_data_found (ZipFile_open : bytes -> Raises ZipFile)
  (self : Unzipper.t) (before after : list ZipInfo) (info : ZipInfo)
  (data : bytes) (log : Log) :
  ZipFile_open (Unzipper.zipped_data self)
  = Return (before ++ info :: after)%list ->
  (forall info', In info' before ->
                 filename info' <> Unzipper.file_to_extract self) ->
  filename info = Unzipper.file_to_extract self ->
  read info = Return data ->
  Unzipper.get_data ZipFile_open self log =
  (Return data,
   (log ++ [(INFO, ("File successfully unzipped: "
                    ++ Unzipper.file_to_extract self)%string)])%list).
Proof.
  intros Hopen Hbefore Hname Hread.
  unfold Unzipper.get_data, Unzipper._extract_file, try_except, bind, call.
  rewrite Hopen.
  rewrite (extract_loop_found self before after info log Hbefore Hname), Hread.
  reflexivity.
Qed.

(** X16. On an archive, [get_data] returns the content of the first entry
    named exactly as requested and logs one INFO record; when no entry has
    that name it raises FileNotFoundError, which is then logged twice, by
    [_extract_file] and by [get_data]. *)
Theorem get_data_on_archive (ZipFile_open : bytes -> Raises ZipFile)
  (self : Unzipper.t) (zip_ref : ZipFile) (log : Log) :
  ZipFile_open (Unzipper.zipped_data self) = Return zip_ref ->
  (forall (before after : list ZipInfo) (info : ZipInfo) (data : bytes),
      zip_ref = (before ++ info :: after)%list ->
      (forall info', In info' before ->
                     filename info' <> Unzipper.file_to_extract self) ->
      filename info = Unzipper.file_to_extract self ->
      read info = Return data ->
      Unzipper.get_data ZipFile_open self log =
      (Return data,
       (log ++ [(INFO, ("File successfully unzipped: "
                        ++ Unzipper.file_to_extract self)%string)])%list))
  /\ ((forall info, In info zip_ref ->
                    filename info <> Unzipper.file_to_extract self) ->
      Unzipper.get_data ZipFile_open self log =
      (Raise (FileNotFoundError
                ("Specified file not found: "
                 ++ Unzipper.file_to_extract self)),
       (log ++ [(ERROR, ("Error extracting file: Specified file not found: "
                         ++ Unzipper.file_to_extract self)%string);
                (ERROR, ("An error occurred: Specified file not found: "
                         ++ Unzipper.file_to_extract self)%string)])%list)).
Proof.
  intros Hopen. split.
  - intros before after info data -> Hbefore Hname Hread.
    now apply (get_data_found ZipFile_open self before after info).
  - intros Hnone.
    unfold Unzipper.get_data, Unzipper._extract_file, try_except, bind, call.
    rewrite Hopen, (extract_loop_missing self zip_ref log Hnone).
    run_py. now rewrite <- app_assoc.
Qed.

Lemma get_data_on_archive_witness :
  Unzipper.get_data (fun _ => Return sample_zip)
    {| Unzipper.file_to_extract := "Filename.txt";
       Unzipper.zipped_data := [] |} []
  = (Raise (FileNotFoundError "Specified file not found: Filename.txt"),
     [(ERROR, "Error extracting file: Specified file not found: Filename.txt");
      (ERROR, "An error occurred: Specified file not found: Filename.txt")]).
Proof.
  apply (proj2 (get_data_on_archive (fun _ => Return sample_zip)
                  {| Unzipper.file_to_extract := "Filename.txt";
                     Unzipper.zipped_data := [] |}
                  sample_zip [] eq_refl)).
  simpl. intros info [<- | []]. discriminate.
Defined.

(* ------------------------------------------------------------------------ *)
(** ** Further properties: start-up *)

(** X17. Start-up succeeds when every stage does: a response with status 200,
    a body that opens as an archive, a first entry of the configured name
    that reads, and a member that [pd.read_csv] accepts. The table is then
    the pruned frame of that member and the log has gained the two INFO
    records of the download and of the extraction. *)
Theorem build_df_success (ZIP_URL FILE_TO_EXTRACT : string)
  (requests_get : string -> Raises Response)
  (ZipFile_open : bytes -> Raises ZipFile)
  (read_csv : bytes -> Raises DataFrame)
  (response : Response) (before after : list ZipInfo) (info : ZipInfo)
  (data : bytes) (raw : DataFrame) (log : Log) :
  requests_get ZIP_URL = Return response ->
  status_code response = 200%Z ->
  ZipFile_open (content response) = Return (before ++ info :: after)%list ->
  (forall info', In info' before -> filename info' <> FILE_TO_EXTRACT) ->
  filename info = FILE_TO_EXTRACT ->
  read info = Return data ->
  read_csv data = Return raw ->
  App.build_df ZIP_URL FILE_TO_EXTRACT requests_get ZipFile_open read_csv log
  = (Return (dropna_all_columns raw),
     (log ++ [(INFO, ("File successfully downloaded: " ++ ZIP_URL)%string);
              (INFO, ("File successfully unzipped: "
                      ++ FILE_TO_EXTRACT)%string)])%list).
Proof.
  intros Hget Hstatus Hopen Hbefore Hname Hread Hcsv.
  unfold App.build_df, bind at 1. rewrite get_file_run. simpl.
  rewrite Hget, Hstatus. simpl. unfold bind at 1.
  rewrite (get_data_found ZipFile_open _ before after info data);
    try assumption.
  simpl. unfold bind, call, ret. rewrite Hcsv. now rewrite <- app_assoc.
Qed.

Lemma build_df_success_witness :
  App.build_df "https://example.org/rates.zip" "rates.csv"
    (fun _ => Return {| status_code := 200; content := [] |})
    (fun _ => Return ([{| filename := "readme.txt"; read := Return [] |}]
                      ++ {| filename := "rates.csv"; read := Return [] |}
                      :: [])%list)
    (fun _ => Return numeric_frame) []
  = (Return (dropna_all_columns numeric_frame),
     [(INFO, "File successfully downloaded: https://example.org/rates.zip");
      (INFO, "File successfully unzipped: rates.csv")]).
Proof.
  apply (build_df_success "https://example.org/rates.zip" "rates.csv"
           (fun _ => Return {| status_code := 200; content := [] |})
           (fun _ => Return ([{| filename := "readme.txt"; read := Return [] |}]
                             ++ {| filename := "rates.csv"; read := Return [] |}
                             :: [])%list)
           (fun _ => Return numeric_frame)
           {| status_code := 200; content := [] |}
           [{| filename := "readme.txt"; read := Return [] |}] []
           {| filename := "rates.csv"; read := Return [] |}
           [] numeric_frame []).
  - reflexivity.
  - reflexivity.
  - reflexivity.
  - simpl. intros info' [<- | []]. discriminate.
  - reflexivity.
  - reflexivity.
  - reflexivity.
Defined.

Lemma get_data_Return (ZipFile_open : bytes -> Raises ZipFile)
  (self : Unzipper.t) (data : bytes) (log log' : Log) :
  Unzipper.get_data ZipFile_open self log = (Return data, log') ->
  exists zip_ref : ZipFile,
    ZipFile_open (Unzipper.zipped_data self) = Return zip_ref
    /\ Unzipper.extract_loop self zip_ref log = (Return data, log').
Proof.
  unfold Unzipper.get_data, try_except, bind at 1, call.
  destruct (ZipFile_open (Unzipper.zipped_data self)) as [zip_ref | e].
  - destruct (Unzipper._extract_file self zip_ref log) as [[d | e] l] eqn:Hx.
    + intros H. injection H as <- <-. exists zip_ref.
      split; [reflexivity | now apply extract_file_Return].
    + run_py. destruct (is_Exception e); discriminate.
  - run_py. destruct (is_Exception e); discriminate.
Qed.

(** X18. A table that start-up returned was built from a response with
    status 200 to a request for the configured URL, whose body opened as an
    archive, from the first entry of the configured name, by [pd.read_csv]
    and pruning; start-up returns a table in no other way. *)
Theorem build_df_success_inversion (ZIP_URL FILE_TO_EXTRACT : string)
  (requests_get : string -> Raises Response)
  (ZipFile_open : bytes -> Raises ZipFile)
  (read_csv : bytes -> Raises DataFrame)
  (log0 log1 : Log) (table : DataFrame) :
  App.build_df ZIP_URL FILE_TO_EXTRACT requests_get ZipFile_open read_csv log0
  = (Return table, log1) ->
  exists (response : Response) (before after : list ZipInfo) (info : ZipInfo)
         (data : bytes) (raw : DataFrame),
    requests_get ZIP_URL = Return response
    /\ status_code response = 200%Z
    /\ ZipFile_open (content response) = Return (before ++ info :: after)%list
    /\ (forall info', In info' before -> filename info' <> FILE_TO_EXTRACT)
    /\ filename info = FILE_TO_EXTRACT
    /\ read info = Return data
    /\ read_csv data = Return raw
    /\ table = dropna_all_columns raw.
Proof.
  unfold App.build_df, bind at 1. rewrite get_file_run. simpl.
  destruct (requests_get ZIP_URL) as [response | e]; [| discriminate].
  destruct (Z.eqb_spec (status_code response) 200) as [Hstatus | _];
    [| discriminate].
  unfold bind at 1.
  destruct (Unzipper.get_data ZipFile_open _ _) as [[data | e] l] eqn:Hdata;
    [| discriminate].
  destruct (get_data_Return _ _ _ _ _ Hdata) as [zip_ref [Hopen Hloop]].
  destruct (extract_loop_Return _ _ _ _ _ Hloop)
    as [before [after [info [-> [Hbefore [Hname [Hread _]]]]]]].
  unfold bind, call, ret.
  destruct (read_csv data) as [raw | e] eqn:Hcsv; [| discriminate].
  intros H. injection H as <- _.
  exists response, before, after, info, data, raw. simpl in *.
  repeat split; assumption.
Qed.

Lemma build_df_success_inversion_witness :
  exists (response : Response) (before after : list ZipInfo) (info : ZipInfo)
         (data : bytes) (raw : DataFrame),
    (fun _ : string => Return {| status_code := 200; content := [] |})
      "https://example.org/rates.zip" = Return response
    /\ status_code response = 200%Z
    /\ (fun _ : bytes =>
          Return [{| filename := "rates.csv"; read := Return [] |}])
         (content response) = Return (before ++ info :: after)%list
    /\ (forall info', In info' before -> filename info' <> "rates.csv")
    /\ filename info = "rates.csv"
    /\ read info = Return data
    /\ (fun _ : bytes => Return numeric_frame) data = Return raw
    /\ dropna_all_columns numeric_frame = dropna_all_columns raw.
Proof.
  apply (build_df_success_inversion
           "https://example.org/rates.zip" "rates.csv"
           (fun _ => Return {| status_code := 200; content := [] |})
           (fun _ => Return [{| filename := "rates.csv"; read := Return [] |}])
           (fun _ => Return numeric_frame)
           []
           [(INFO, "File successfully downloaded: https://example.org/rates.zip");
            (INFO, "File successfully unzipped: rates.csv")]
           (dropna_all_columns numeric_frame)).
  reflexivity.
Defined.

(** X19. Start-up stops at the first stage that fails and raises its error:
    a status other than 200 gives HTTPError whatever the body holds, an
    archive without the configured member gives FileNotFoundError whatever
    [pd.read_csv] would do, and an error of [pd.read_csv] is raised as it is,
    without an ERROR record since no handler surrounds that call. *)
Theorem build_df_failures (ZIP_URL FILE_TO_EXTRACT : string)
  (requests_get : string -> Raises Response)
  (ZipFile_open : bytes -> Raises ZipFile)
  (read_csv : bytes -> Raises DataFrame)
  (response : Response) (log : Log) :
  requests_get ZIP_URL = Return response ->
  (status_code response <> 200%Z ->
   App.build_df ZIP_URL FILE_TO_EXTRACT requests_get ZipFile_open read_csv log
   = (Raise (HTTPError ("HTTP error " ++ str_int (status_code response))),
      (log ++ [(ERROR, ("An error occurred: HTTP error "
                        ++ str_int (status_code response))%string)])%list))
  /\ (forall zip_ref : ZipFile,
         status_code response = 200%Z ->
         ZipFile_open (content response) = Return zip_ref ->
         (forall info, In info zip_ref -> filename info <> FILE_TO_EXTRACT) ->
         outcome
           (App.build_df ZIP_URL FILE_TO_EXTRACT requests_get ZipFile_open
              read_csv) log
         = Raise (FileNotFoundError
                    ("Specified file not found: " ++ FILE_TO_EXTRACT)))
  /\ (forall (before after : list ZipInfo) (info : ZipInfo) (data : bytes)
             (e : exc),
         status_code response = 200%Z ->
         ZipFile_open (content response)
         = Return (before ++ info :: after)%list ->
         (forall info', In info' before -> filename info' <> FILE_TO_EXTRACT) ->
         filename info = FILE_TO_EXTRACT ->
         read info = Return data ->
         read_csv data = Raise e ->
         App.build_df ZIP_URL FILE_TO_EXTRACT requests_get ZipFile_open
           read_csv log
         = (Raise e,
            (log ++ [(INFO, ("File successfully downloaded: "
                             ++ ZIP_URL)%string);
                     (INFO, ("File successfully unzipped: "
                             ++ FILE_TO_EXTRACT)%string)])%list)).
Proof.
  intros Hget. split; [| split].
  - intros Hstatus. unfold App.build_df, bind at 1. rewrite get_file_run.
    simpl. rewrite Hget.
    destruct (Z.eqb_spec (status_code response) 200); [contradiction |].
    reflexivity.
  - intros zip_ref Hstatus Hopen Hnone.
    unfold outcome, App.build_df, bind at 1. rewrite get_file_run. simpl.
    rewrite Hget, Hstatus. simpl. unfold bind at 1.
    unfold Unzipper.get_data, Unzipper._extract_file, try_except, bind at 1,
      call.
    simpl. rewrite Hopen.
    rewrite (extract_loop_missing
               {| Unzipper.file_to_extract := FILE_TO_EXTRACT;
                  Unzipper.zipped_data := content response |}
               zip_ref _ Hnone).
    reflexivity.
  - intros before after info data e Hstatus Hopen Hbefore Hname Hread Hcsv.
    unfold App.build_df, bind at 1. rewrite get_file_run. simpl.
    rewrite Hget, Hstatus. simpl. unfold bind at 1.
    rewrite (get_data_found ZipFile_open _ before after info data);
      try assumption.
    simpl. unfold bind, call. rewrite Hcsv. now rewrite <- app_assoc.
Qed.

Lemma build_df_failures_witness :
  App.build_df "https://example.org/rates.zip" "rates.csv"
    (fun _ => Return {| status_code := 404; content := [] |})
    (fun _ => Return [{| filename := "rates.csv"; read := Return [] |}])
    (fun _ => Return numeric_frame) []
  = (Raise (HTTPError "HTTP error 404"),
     [(ERROR, "An error occurred: HTTP error 404")]).
Proof.
  apply (proj1 (build_df_failures "https://example.org/rates.zip" "rates.csv"
                  (fun _ => Return {| status_code := 404; content := [] |})
                  (fun _ => Return [{| filename := "rates.csv";
                                       read := Return [] |}])
                  (fun _ => Return numeric_frame)
                  {| status_code := 404; content := [] |} [] eq_refl)).
  simpl. discriminate.
Defined.
